(** * Verification of the Python samples

    Two independent units are embedded here:

    - [adapters/HandleStockRequest.py]: the Lambda adapter [getStocksRequest];
    - [tests/integration/test_by_waiting.py]: the [unittest] test case
      [TestMinimalPluginByWaiting] (class body, [setUp], [tearDown] and the
      test method with its local predicate [_matched_event_is_correct]).

    Python values, exceptions and the [json] module are modelled first;
    the two units follow, each in its own module. *)

From Stdlib Require Import ZArith Ascii String List Lia Bool.
From Stdlib Require Import DecimalString.
From stdpp Require Import base option strings gmap.
Import ListNotations.

Local Open Scope string_scope.
Local Open Scope list_scope.

(* ===================================================================== *)
(** * Python values, exceptions and results *)
(* ===================================================================== *)

(** A Python [str] is represented by its UTF-8 encoding, one [ascii] per
    byte: equality and concatenation of [str] values are equality and
    concatenation of the encodings. *)

(** Texts that hold double quotes are written here with an apostrophe in
    place of each quote: [dq] puts the quotes back. *)
Fixpoint dq (s : string) : string :=
  match s with
  | EmptyString => EmptyString
  | String c s' => String (if Ascii.eqb c "'" then "034" else c) (dq s')
  end.

(** Exception classes the two units can meet.  [KeyboardInterrupt] and
    [SystemExit] derive from [BaseException] only; every other class
    derives from [Exception]. *)
Inductive pyexn_class : Type :=
  | KeyboardInterrupt
  | SystemExit
  | Exception
  | AssertionError
  | KeyError
  | TypeError
  | ValueError
  | JSONDecodeError
  | RecursionError
  | UnboundLocalError
  | ProviderError (name : string).

(** An exception object: its class and its argument (the message, the
    missing key of a [KeyError], the variable of an [UnboundLocalError]). *)
Record pyexn : Type := Exn { exn_class : pyexn_class; exn_arg : string }.

(** [isinstance(e, Exception)]. *)
Definition is_Exception (e : pyexn) : bool :=
  match exn_class e with
  | KeyboardInterrupt | SystemExit => false
  | _ => true
  end.

(** The outcome of evaluating a Python expression or call. *)
Inductive pyresult (A : Type) : Type :=
  | Return (a : A)
  | Raise (e : pyexn).
Arguments Return {A} a.
Arguments Raise {A} e.

(** [pyresult] is the error monad of Python evaluation: a raised
    exception skips the rest of the block. *)
#[global] Instance pyresult_ret : MRet pyresult := fun _ a => Return a.
#[global] Instance pyresult_bind : MBind pyresult := fun _ _ k r =>
  match r with
  | Return a => k a
  | Raise e => Raise e
  end.

(** Stateful Python code: a computation over a state [S] (instance
    attributes, local variables, output, the calls made so far) that
    completes with a value or raises.  The state reached when an exception
    is raised is kept: what was done before the [raise] stays done. *)
Definition py (S A : Type) : Type := S -> pyresult A * S.

#[global] Instance py_ret {S} : MRet (py S) := fun _ a st => (Return a, st).
#[global] Instance py_bind {S} : MBind (py S) := fun _ _ k m st =>
  match m st with
  | (Return a, st') => k a st'
  | (Raise e, st') => (Raise e, st')
  end.

(** An expression evaluated inside stateful code. *)
Definition eval {S A} (r : pyresult A) : py S A := fun st => (r, st).

Definition get_state {S} : py S S := fun st => (Return st, st).
Definition modify {S} (f : S -> S) : py S unit := fun st => (Return tt, f st).

(** Python objects.  [PFloat] carries a decimal literal that denotes the
    float; float arithmetic and formatting are outside the model.  A
    [PDict] has [str] keys and keeps insertion order.  [PObject] stands for
    an instance of a class that is none of these and derives from none of
    them ([bytes], [set], [Decimal], a response object, ...), named by its
    type. *)
#[local] Set Warnings "-register-all".
Inductive pyval : Type :=
  | PNone
  | PBool (b : bool)
  | PInt (z : Z)
  | PFloat (lit : string)
  | PStr (s : string)
  | PList (items : list pyval)
  | PTuple (items : list pyval)
  | PDict (pairs : list (string * pyval))
  | PObject (type_name : string).

(** [d.get(k)]: the value bound to [k], if any. *)
Fixpoint dict_get (k : string) (d : list (string * pyval)) : option pyval :=
  match d with
  | [] => None
  | (k', v) :: d' => if String.eqb k k' then Some v else dict_get k d'
  end.

(** [d[k] = v]: an existing key keeps its position, a new key goes last. *)
Fixpoint dict_set (k : string) (v : pyval) (d : list (string * pyval))
  : list (string * pyval) :=
  match d with
  | [] => [(k, v)]
  | (k', v') :: d' =>
      if String.eqb k k' then (k, v) :: d' else (k', v') :: dict_set k v d'
  end.

(** [obj[key]] for a [str] key: a dict raises [KeyError] on a missing key,
    a list, a tuple or a string rejects a [str] index, anything else is not
    subscriptable. *)
Definition getitem (obj : pyval) (key : string) : pyresult pyval :=
  match obj with
  | PDict d =>
      match dict_get key d with
      | Some v => Return v
      | None => Raise (Exn KeyError key)
      end
  | PList _ => Raise (Exn TypeError "list indices must be integers or slices, not str")
  | PTuple _ => Raise (Exn TypeError "tuple indices must be integers or slices, not str")
  | PStr _ => Raise (Exn TypeError "string indices must be integers, not 'str'")
  | _ => Raise (Exn TypeError "object is not subscriptable")
  end.

(** [v == s] for a [str] literal [s]: only an equal [str] compares equal. *)
Definition eq_str (v : pyval) (s : string) : bool :=
  match v with
  | PStr s' => String.eqb s' s
  | _ => false
  end.

(* ===================================================================== *)
(** * The [json] module *)
(* ===================================================================== *)

(** [json.loads] and [json.dumps] with their default arguments, as the two
    units call them.  Error messages are kept without their position. *)
Module Json.

Local Open Scope char_scope.

Definition decode_error (msg : string) : pyexn := Exn JSONDecodeError msg.

(** ** Lexical helpers *)

(** The whitespace skipped between tokens: space, tab, line feed, carriage
    return. *)
Definition is_ws (c : ascii) : bool :=
  match c with
  | " " | "009" | "010" | "013" => true
  | _ => false
  end.

Fixpoint skip_ws (s : list ascii) : list ascii :=
  match s with
  | c :: r => if is_ws c then skip_ws r else s
  | [] => []
  end.

Definition is_digit (c : ascii) : bool :=
  let n := N_of_ascii c in ((48 <=? n) && (n <=? 57))%N.

Definition hex_val (c : ascii) : option N :=
  let n := N_of_ascii c in
  if ((48 <=? n) && (n <=? 57))%N then Some (n - 48)%N
  else if ((65 <=? n) && (n <=? 70))%N then Some (n - 55)%N
  else if ((97 <=? n) && (n <=? 102))%N then Some (n - 87)%N
  else None.

(** The four hex digits of a [\uXXXX] escape. *)
Definition hex4 (a b c d : ascii) : option N :=
  a' ← hex_val a; b' ← hex_val b; c' ← hex_val c; d' ← hex_val d;
  Some (((a' * 16 + b') * 16 + c') * 16 + d')%N.

Definition byte (n : N) : ascii := ascii_of_N n.

(** UTF-8 encoding of one code point (a lone surrogate is encoded like any
    other three-byte code point). *)
Definition utf8_encode (cp : N) : list ascii :=
  if (cp <? 128)%N then [byte cp]
  else if (cp <? 2048)%N then
    [byte (192 + cp / 64); byte (128 + cp mod 64)]
  else if (cp <? 65536)%N then
    [byte (224 + cp / 4096); byte (128 + (cp / 64) mod 64);
     byte (128 + cp mod 64)]
  else
    [byte (240 + cp / 262144); byte (128 + (cp / 4096) mod 64);
     byte (128 + (cp / 64) mod 64); byte (128 + cp mod 64)].

Definition is_high_surrogate (u : N) : bool := ((55296 <=? u) && (u <=? 56319))%N.
Definition is_low_surrogate (u : N) : bool := ((56320 <=? u) && (u <=? 57343))%N.
Definition join_surrogates (hi lo : N) : N :=
  (65536 + ((hi - 55296) * 1024 + (lo - 56320)))%N.

(** ** Strings *)

Definition prepend (pre : list ascii) (r : pyresult (list ascii * list ascii))
  : pyresult (list ascii * list ascii) :=
  '(str, rest) ← r; Return (pre ++ str, rest).

(** The character a one-letter escape stands for. *)
Definition escape_char (e : ascii) : option ascii :=
  if Ascii.eqb e "034" then Some "034"
  else if Ascii.eqb e "\" then Some "\"
  else if Ascii.eqb e "/" then Some "/"
  else if Ascii.eqb e "b" then Some "008"
  else if Ascii.eqb e "f" then Some "012"
  else if Ascii.eqb e "n" then Some "010"
  else if Ascii.eqb e "r" then Some "013"
  else if Ascii.eqb e "t" then Some "009"
  else None.

(** [scanstring], entered after the opening quote: the decoded string and
    the input after the closing quote.  Strict mode: a raw control
    character ends the scan with an error.  A high surrogate escape
    followed by a low surrogate escape is one code point. *)
Fixpoint scanstring (s : list ascii) : pyresult (list ascii * list ascii) :=
  match s with
  | [] => Raise (decode_error "Unterminated string starting at")
  | c :: r =>
      if Ascii.eqb c "034" then Return ([], r)
      else if Ascii.eqb c "\" then
        match r with
        | [] => Raise (decode_error "Unterminated string starting at")
        | e :: r0 =>
            if Ascii.eqb e "u" then
              match r0 with
              | a :: b :: c :: d :: r1 =>
                  match hex4 a b c d with
                  | None => Raise (decode_error "Invalid \uXXXX escape")
                  | Some u =>
                      match r1 with
                      | x :: y :: a2 :: b2 :: c2 :: d2 :: r2 =>
                          if (is_high_surrogate u && Ascii.eqb x "\"
                              && Ascii.eqb y "u")%bool then
                            match hex4 a2 b2 c2 d2 with
                            | None =>
                                Raise (decode_error "Invalid \uXXXX escape")
                            | Some u2 =>
                                if is_low_surrogate u2
                                then prepend (utf8_encode (join_surrogates u u2))
                                             (scanstring r2)
                                else prepend (utf8_encode u) (scanstring r1)
                            end
                          else prepend (utf8_encode u) (scanstring r1)
                      | _ => prepend (utf8_encode u) (scanstring r1)
                      end
                  end
              | _ => Raise (decode_error "Invalid \uXXXX escape")
              end
            else
              match escape_char e with
              | Some ch => prepend [ch] (scanstring r0)
              | None => Raise (decode_error "Invalid \escape")
              end
        end
      else if (N_of_ascii c <? 32)%N
      then Raise (decode_error "Invalid control character at")
      else prepend [c] (scanstring r)
  end.

(** ** Numbers *)

(** The longest run of decimal digits at the head of the input. *)
Fixpoint span_digits (s : list ascii) : list ascii * list ascii :=
  match s with
  | c :: r =>
      if is_digit c
      then let '(ds, rest) := span_digits r in (c :: ds, rest)
      else ([], s)
  | [] => ([], [])
  end.

(** The integer part [0|[1-9][0-9]*] of a number. *)
Definition match_int_digits (s : list ascii) : option (list ascii * list ascii) :=
  match s with
  | c :: r =>
      if Ascii.eqb c "0" then Some ([c], r)
      else if is_digit c
      then let '(ds, rest) := span_digits r in Some (c :: ds, rest)
      else None
  | [] => None
  end.

(** The optional fraction [\.[0-9]+]. *)
Definition match_frac (s : list ascii) : option (list ascii * list ascii) :=
  match s with
  | c :: r =>
      if Ascii.eqb c "." then
        match span_digits r with
        | ([], _) => None
        | (ds, rest) => Some (c :: ds, rest)
        end
      else None
  | [] => None
  end.

(** An optional sign. *)
Definition match_sign (s : list ascii) : list ascii * list ascii :=
  match s with
  | c :: r =>
      if (Ascii.eqb c "-" || Ascii.eqb c "+")%bool then ([c], r) else ([], s)
  | [] => ([], [])
  end.

(** The optional exponent [[eE][-+]?[0-9]+]. *)
Definition match_exp (s : list ascii) : option (list ascii * list ascii) :=
  match s with
  | e :: r =>
      if (Ascii.eqb e "e" || Ascii.eqb e "E")%bool then
        let '(sign, r1) := match_sign r in
        match span_digits r1 with
        | ([], _) => None
        | (ds, rest) => Some (e :: sign ++ ds, rest)
        end
      else None
  | [] => None
  end.

Definition digits_to_Z (ds : list ascii) : Z :=
  fold_left (fun acc c => (acc * 10 + (Z.of_N (N_of_ascii c) - 48))%Z) ds 0%Z.

(** The interpreter's limit on the digits of an [int] literal
    ([sys.get_int_max_str_digits()], 4300 by default). *)
Definition int_max_str_digits : nat := 4300.

Definition int_of_digits (neg : bool) (ds : list ascii) : pyresult pyval :=
  if (int_max_str_digits <? List.length ds)%nat
  then Raise (Exn ValueError
                "Exceeds the limit (4300 digits) for integer string conversion")
  else Return (PInt (if neg then - digits_to_Z ds else digits_to_Z ds)%Z).

(** A leading minus sign. *)
Definition match_minus (s : list ascii) : bool * list ascii :=
  match s with
  | c :: r => if Ascii.eqb c "-" then (true, r) else (false, s)
  | [] => (false, [])
  end.

(** [NUMBER_RE.match] and the conversion of the lexeme: an [int] when it
    has neither fraction nor exponent, a [float] otherwise.  [None] when
    no number starts here. *)
Definition match_number (s : list ascii)
  : option (pyresult pyval * list ascii) :=
  let '(neg, s1) := match_minus s in
  '(ds, s2) ← match_int_digits s1;
  let sign := if neg then ["-"] else [] in
  match match_frac s2, match_exp s2 with
  | None, None => Some (int_of_digits neg ds, s2)
  | Some (fr, s3), _ =>
      match match_exp s3 with
      | Some (ex, s4) =>
          Some (Return (PFloat (string_of_list_ascii (sign ++ ds ++ fr ++ ex))), s4)
      | None =>
          Some (Return (PFloat (string_of_list_ascii (sign ++ ds ++ fr))), s3)
      end
  | None, Some (ex, s3) =>
      Some (Return (PFloat (string_of_list_ascii (sign ++ ds ++ ex))), s3)
  end.

(** ** Values *)

(** What is left of the input after the given word, when it starts with
    that word. *)
Fixpoint strip_prefix (word s : list ascii) : option (list ascii) :=
  match word, s with
  | [], _ => Some s
  | w :: word', c :: s' => if Ascii.eqb w c then strip_prefix word' s' else None
  | _ :: _, [] => None
  end.

(** The first constant of the table the input starts with. *)
Fixpoint match_constant (table : list (string * pyval)) (s : list ascii)
  : option (pyval * list ascii) :=
  match table with
  | [] => None
  | (word, v) :: table' =>
      match strip_prefix (list_ascii_of_string word) s with
      | Some rest => Some (v, rest)
      | None => match_constant table' s
      end
  end.

(** The constants tried before a number, and those tried after. *)
Definition literals : list (string * pyval) :=
  [("null", PNone); ("true", PBool true); ("false", PBool false)]%string.

Definition float_constants : list (string * pyval) :=
  [("NaN", PFloat "NaN"); ("Infinity", PFloat "Infinity");
   ("-Infinity", PFloat "-Infinity")]%string.

(** [scan_once] with the object and array loops it calls.  [fuel] bounds
    the number of calls; [object_loop] is entered after the opening quote
    of a key, [array_loop] at the first character of an element. *)
Fixpoint scan_once (fuel : nat) (s : list ascii) {struct fuel}
  : pyresult (pyval * list ascii) :=
  match fuel with
  | O => Raise (Exn RecursionError "maximum recursion depth exceeded")
  | S n =>
      match s with
      | [] => Raise (decode_error "Expecting value")
      | c :: r =>
          if Ascii.eqb c "034" then
            '(str, rest) ← scanstring r;
            Return (PStr (string_of_list_ascii str), rest)
          else if Ascii.eqb c "{" then
            match skip_ws r with
            | [] => Raise (decode_error
                      "Expecting property name enclosed in double quotes")
            | c1 :: r1 =>
                if Ascii.eqb c1 "}" then Return (PDict [], r1)
                else if Ascii.eqb c1 "034" then object_loop n r1 []
                else Raise (decode_error
                       "Expecting property name enclosed in double quotes")
            end
          else if Ascii.eqb c "[" then
            match skip_ws r with
            | [] => Raise (decode_error "Expecting value")
            | c1 :: r1 =>
                if Ascii.eqb c1 "]" then Return (PList [], r1)
                else array_loop n (c1 :: r1) []
            end
          else
            match match_constant literals s with
            | Some res => Return res
            | None =>
                match match_number s with
                | Some (num, rest) => v ← num; Return (v, rest)
                | None =>
                    match match_constant float_constants s with
                    | Some res => Return res
                    | None => Raise (decode_error "Expecting value")
                    end
                end
            end
      end
  end

with object_loop (fuel : nat) (s : list ascii) (acc : list (string * pyval))
  {struct fuel} : pyresult (pyval * list ascii) :=
  match fuel with
  | O => Raise (Exn RecursionError "maximum recursion depth exceeded")
  | S n =>
      '(key, r1) ← scanstring s;
      match skip_ws r1 with
      | [] => Raise (decode_error "Expecting ':' delimiter")
      | c2 :: r2 =>
          if Ascii.eqb c2 ":" then
            '(v, r3) ← scan_once n (skip_ws r2);
            let acc' := dict_set (string_of_list_ascii key) v acc in
            match skip_ws r3 with
            | [] => Raise (decode_error "Expecting ',' delimiter")
            | c4 :: r4 =>
                if Ascii.eqb c4 "}" then Return (PDict acc', r4)
                else if Ascii.eqb c4 "," then
                  match skip_ws r4 with
                  | [] => Raise (decode_error
                            "Expecting property name enclosed in double quotes")
                  | c5 :: r5 =>
                      if Ascii.eqb c5 "034" then object_loop n r5 acc'
                      else Raise (decode_error
                             "Expecting property name enclosed in double quotes")
                  end
                else Raise (decode_error "Expecting ',' delimiter")
            end
          else Raise (decode_error "Expecting ':' delimiter")
      end
  end

with array_loop (fuel : nat) (s : list ascii) (acc : list pyval)
  {struct fuel} : pyresult (pyval * list ascii) :=
  match fuel with
  | O => Raise (Exn RecursionError "maximum recursion depth exceeded")
  | S n =>
      '(v, r1) ← scan_once n s;
      match skip_ws r1 with
      | [] => Raise (decode_error "Expecting ',' delimiter")
      | c2 :: r2 =>
          if Ascii.eqb c2 "]" then Return (PList (acc ++ [v]), r2)
          else if Ascii.eqb c2 "," then array_loop n (skip_ws r2) (acc ++ [v])
          else Raise (decode_error "Expecting ',' delimiter")
      end
  end.

(** Fuel that no input exhausts: each call of the three functions above
    is made on a shorter input, or by [array_loop] on the same input. *)
Definition enough_fuel (s : list ascii) : nat := S (2 * List.length s).

Definition starts_with_bom (s : list ascii) : bool :=
  match s with
  | a :: b :: c :: _ =>
      (Ascii.eqb a "239" && Ascii.eqb b "187" && Ascii.eqb c "191")%bool
  | _ => false
  end.

(** [json.loads(s)] for a [str] argument: one value, surrounded by optional
    whitespace, and nothing else.  A [str] that starts with U+FEFF (bytes
    239, 187, 191) is refused.  The interpreter's own recursion limit is
    not modelled: an input of any nesting depth is decoded. *)
Definition loads (s : string) : pyresult pyval :=
  let l := list_ascii_of_string s in
  if starts_with_bom l
  then Raise (decode_error "Unexpected UTF-8 BOM (decode using utf-8-sig)")
  else
    '(v, rest) ← scan_once (enough_fuel l) (skip_ws l);
    match skip_ws rest with
    | [] => Return v
    | _ => Raise (decode_error "Extra data")
    end.

(** ** Serialization *)

Definition hex_digit (n : N) : ascii :=
  if (n <? 10)%N then byte (48 + n) else byte (87 + n).

(** ['\\u{0:04x}'.format(n)]. *)
Definition u_escape (n : N) : list ascii :=
  ["\"; "u"; hex_digit (n / 4096); hex_digit ((n / 256) mod 16);
   hex_digit ((n / 16) mod 16); hex_digit (n mod 16)].

(** The replacement of one code point by [encode_basestring_ascii]:
    printable ASCII other than the quote and the backslash is copied, the
    rest is escaped, above U+FFFF as a surrogate pair. *)
Definition escape_code_point (cp : N) : list ascii :=
  if (cp =? 34)%N then ["\"; "034"]
  else if (cp =? 92)%N then ["\"; "\"]
  else if (cp =? 10)%N then ["\"; "n"]
  else if (cp =? 13)%N then ["\"; "r"]
  else if (cp =? 9)%N then ["\"; "t"]
  else if (cp =? 12)%N then ["\"; "f"]
  else if (cp =? 8)%N then ["\"; "b"]
  else if ((32 <=? cp) && (cp <=? 126))%N then [byte cp]
  else if (cp <? 65536)%N then u_escape cp
  else
    let v := (cp - 65536)%N in
    u_escape (55296 + (v / 1024) mod 1024) ++ u_escape (56320 + v mod 1024).

Definition is_cont (c : ascii) : bool :=
  let n := N_of_ascii c in ((128 <=? n) && (n <? 192))%N.

Definition cont (c : ascii) : N := (N_of_ascii c - 128)%N.

(** The code points of a [str], read back from its UTF-8 encoding.  A byte
    that starts no well-formed sequence (no [str] is encoded so) is taken
    as a code point of its own. *)
Fixpoint code_points (s : list ascii) : list N :=
  match s with
  | [] => []
  | a :: r =>
      let n := N_of_ascii a in
      let single := n :: code_points r in
      if (n <? 192)%N then single
      else if (n <? 224)%N then
        match r with
        | b :: r1 =>
            if is_cont b
            then ((n - 192) * 64 + cont b)%N :: code_points r1
            else single
        | _ => single
        end
      else if (n <? 240)%N then
        match r with
        | b :: c :: r2 =>
            if (is_cont b && is_cont c)%bool
            then (((n - 224) * 64 + cont b) * 64 + cont c)%N :: code_points r2
            else single
        | _ => single
        end
      else
        match r with
        | b :: c :: d :: r3 =>
            if (is_cont b && is_cont c && is_cont d)%bool
            then ((((n - 240) * 64 + cont b) * 64 + cont c) * 64 + cont d)%N
                 :: code_points r3
            else single
        | _ => single
        end
  end.

(** [encode_basestring_ascii(s)]: the JSON string literal of [s], quotes
    included ([ensure_ascii] is on by default). *)
Definition encode_basestring_ascii (s : string) : string :=
  string_of_list_ascii
    ("034" :: flat_map escape_code_point (code_points (list_ascii_of_string s))
          ++ ["034"]).

(** [str(z)] for an [int] within the digit limit. *)
Definition str_of_int (z : Z) : string := NilZero.string_of_int (Z.to_int z).

(** An [int] of more than [int_max_str_digits] decimal digits, that is, of
    absolute value [10 ^ 4300] or more: its conversion to text is refused. *)
Definition exceeds_int_max_str_digits (z : Z) : bool :=
  (10 ^ Z.of_nat int_max_str_digits <=? Z.abs z)%Z.

(** [', '.join(parts)]. *)
Fixpoint join_comma (parts : list string) : string :=
  match parts with
  | [] => ""
  | [p] => p
  | p :: ps => p ++ ", " ++ join_comma ps
  end.

Section Dumps.

(** The text the encoder gives the float a literal denotes: floats are
    not modelled, so their formatting is a parameter. *)
Variable float_repr : string -> string.

(** [json.dumps(obj)] with the default separators [', '] and [': '].  A
    tuple is encoded as a list.  An [int] beyond the digit limit raises
    [ValueError], an object of a class the encoder does not know raises
    [TypeError].  The interpreter's own recursion limit is not modelled:
    an object of any nesting depth is encoded. *)
Fixpoint dumps (obj : pyval) : pyresult string :=
  match obj with
  | PNone => Return "null"
  | PBool true => Return "true"
  | PBool false => Return "false"
  | PInt z =>
      if exceeds_int_max_str_digits z
      then Raise (Exn ValueError
                    "Exceeds the limit (4300 digits) for integer string conversion")
      else Return (str_of_int z)
  | PFloat lit => Return (float_repr lit)
  | PStr s => Return (encode_basestring_ascii s)
  | PList items | PTuple items =>
      parts ← (fix each (l : list pyval) : pyresult (list string) :=
                 match l with
                 | [] => Return []
                 | v :: l' => t ← dumps v; ts ← each l'; Return (t :: ts)
                 end) items;
      Return ("[" ++ join_comma parts ++ "]")
  | PDict pairs =>
      parts ← (fix each (l : list (string * pyval)) : pyresult (list string) :=
                 match l with
                 | [] => Return []
                 | (k, v) :: l' =>
                     t ← dumps v; ts ← each l';
                     Return ((encode_basestring_ascii k ++ ": " ++ t) :: ts)
                 end) pairs;
      Return ("{" ++ join_comma parts ++ "}")
  | PObject ty =>
      Raise (Exn TypeError
               ("Object of type " ++ ty ++ " is not JSON serializable"))
  end%string.

End Dumps.

End Json.


(* ===================================================================== *)
(** * [adapters/HandleStockRequest.py] *)
(* ===================================================================== *)

Module HandleStockRequest.

(** What [print] received: the objects of one call, in order. *)
Inductive printed : Type :=
  | OfVal (v : pyval)
  | OfExn (e : pyexn).

Definition stdout : Type := list (list printed).

(** The local variables of [getStocksRequest]; [None] is an unbound name. *)
Record locals : Type := Locals {
  stockData : option pyval;
  response : option pyval
}.

Definition stmt : Type := py (locals * stdout) unit.

(** [try: body / except Exception as e: handler e]: only an instance of
    [Exception] is caught. *)
Definition try_except_Exception {S} (body : py S unit)
    (handler : pyexn -> py S unit) : py S unit := fun st =>
  match body st with
  | (Return u, st') => (Return u, st')
  | (Raise e, st') =>
      if is_Exception e then handler e st' else (Raise e, st')
  end.

(** [print(obj, ...)]: one line of output. *)
Definition print (objs : list printed) : stmt :=
  modify (fun '(l, out) => (l, out ++ [objs])).

(** Reading a local name: [UnboundLocalError] when it was never assigned. *)
Definition load (name : string) (field : locals -> option pyval)
  : py (locals * stdout) pyval :=
  '(l, _) ← get_state;
  match field l with
  | Some v => mret v
  | None => eval (Raise (Exn UnboundLocalError name))
  end.

Definition store (set : locals -> locals) : stmt :=
  modify (fun '(l, out) => (set l, out)).

Section Handler.

(** The port [HttpHandler.retrieveStock], defined outside this unit. *)
Variable retrieveStock : pyval -> pyresult pyval.
Variable float_repr : string -> string.

Definition set_stockData (v : pyval) (l : locals) : locals :=
  {| stockData := Some v; response := response l |}.
Definition set_response (v : pyval) (l : locals) : locals :=
  {| stockData := stockData l; response := Some v |}.

(** The [try] block, lines 6 to 13. *)
Definition try_block (stockID : pyval) : stmt :=
  v ← eval (retrieveStock stockID);
  store (set_stockData v);;
  stockData_ ← load "stockData" stockData;
  print [OfVal (PStr "Stock Data"); OfVal stockData_];;
  stockData_ ← load "stockData" stockData;
  body ← eval (Json.dumps float_repr (PDict [("message", stockData_)]));
  store (set_response (PDict [("statusCode", PInt 200); ("body", PStr body)])).

(** The body of [getStocksRequest]. *)
Definition getStocksRequest_body (stockID : pyval) : py (locals * stdout) pyval :=
  try_except_Exception (try_block stockID) (fun e => print [OfExn e]);;
  load "response" response.

(** [getStocksRequest(stockID)]: what the call returns or raises, and what
    it printed. *)
Definition getStocksRequest (stockID : pyval) : pyresult pyval * stdout :=
  let '(r, (_, out)) := getStocksRequest_body stockID (Locals None None, []) in
  (r, out).

End Handler.

End HandleStockRequest.

(* ===================================================================== *)
(** * [tests/integration/test_by_waiting.py] *)
(* ===================================================================== *)

Module TestByWaiting.

(** ** The clients the test talks to *)

(** The methods of [aws_iatk.AwsIatk] the test calls, with what each
    returns: [get_stack_outputs] the [outputs] mapping, [add_listener] the
    [id] of the new listener. *)
Record AwsIatk : Type := {
  get_stack_outputs :
    forall (stack_name : string) (output_names : list string),
      pyresult (list (string * pyval));
  add_listener :
    forall (event_bus_name : string) (rule_name : pyval), pyresult pyval;
  remove_listeners : forall (ids : list pyval), pyresult unit;
  wait_until_event_matched :
    forall (listener_id : pyval) (assertion_fn : string -> pyresult bool)
           (timeout_seconds : Z), pyresult bool
}.

(** The one method of the Step Functions client the test calls. *)
Record StepFunctions : Type := {
  start_execution :
    forall (stateMachineArn : pyval) (input : string), pyresult unit
}.

(** A call made through a client or a client constructed, as the test
    makes them, in order.  [AddListener] and [WaitUntilEventMatched] keep
    what the call gave back. *)
Inductive call : Type :=
  | NewAwsIatk (region : string)
  | Boto3Client (service region_name : string)
  | GetStackOutputs (stack_name : string) (output_names : list string)
  | AddListener (event_bus_name : string) (rule_name : pyval)
                (result : pyresult pyval)
  | RemoveListeners (ids : list pyval)
  | StartExecution (stateMachineArn : pyval) (input : string)
  | WaitUntilEventMatched (listener_id : pyval) (timeout_seconds : Z)
                          (result : pyresult bool).

Definition trace : Type := list call.

(** Make a call: log it, then complete as the client did. *)
Definition perform {S A} (log : (S * trace) -> pyresult A -> call)
    (r : pyresult A) : py (S * trace) A := fun st =>
  (r, (fst st, snd st ++ [log st r])).

(** ** The class body *)

(** The class attributes bound when the class statement has run. *)
Record class_attrs : Type := {
  aws_region : string;
  plugin_tester_stack_name : string;
  iatk_client : AwsIatk;
  step_functions_client : StepFunctions;
  SLA_TIMEOUT_SECONDS : Z
}.

Section ClassBody.

(** The constructors [aws_iatk.AwsIatk] and [boto3.client]. *)
Variable new_AwsIatk : forall (region : string), pyresult AwsIatk.
Variable boto3_client : forall (service region_name : string), pyresult StepFunctions.

(** Lines 27 to 32: [os.environ.get] gives [None] for a variable that is
    not set. *)
Definition read_environment (environ : gmap string string)
  : pyresult (string * string) :=
  match environ !! "AWS_REGION" with
  | None => Raise (Exn Exception "AWS_REGION environment variable is required")
  | Some aws_region =>
      match environ !! "PLUGIN_TESTER_STACK_NAME" with
      | None => Raise (Exn Exception
                  "PLUGIN_TESTER_STACK_NAME environment variable is required")
      | Some plugin_tester_stack_name =>
          Return (aws_region, plugin_tester_stack_name)
      end
  end.

(** The class statement, run when the module is loaded. *)
Definition class_body (environ : gmap string string) : py (unit * trace) class_attrs :=
  '(region, stack) ← eval (read_environment environ);
  iatk ← perform (fun _ _ => NewAwsIatk region) (new_AwsIatk region);
  sfn ← perform (fun _ _ => Boto3Client "stepfunctions" region)
                (boto3_client "stepfunctions" region);
  mret {| aws_region := region;
          plugin_tester_stack_name := stack;
          iatk_client := iatk;
          step_functions_client := sfn;
          SLA_TIMEOUT_SECONDS := 20 |}.

Definition load_class (environ : gmap string string)
  : pyresult class_attrs * trace :=
  let '(r, (_, tr)) := class_body environ (tt, []) in (r, tr).

End ClassBody.

(** ** The test case *)

(** The instance attributes; each starts as [None], its class-level
    default. *)
Record test_case : Type := {
  listener_id : pyval;
  plugin_tester_arn : pyval;
  existing_rule_name : pyval
}.

Definition fresh_test_case : test_case :=
  {| listener_id := PNone; plugin_tester_arn := PNone;
     existing_rule_name := PNone |}.

Definition method (A : Type) : Type := py (test_case * trace) A.

Definition getattr {A} (field : test_case -> A) : method A :=
  st ← get_state; mret (field (fst st)).

Definition setattr (set : test_case -> test_case) : method unit :=
  modify (fun st => (set (fst st), snd st)).

Definition set_listener_id (v : pyval) (t : test_case) : test_case :=
  {| listener_id := v; plugin_tester_arn := plugin_tester_arn t;
     existing_rule_name := existing_rule_name t |}.
Definition set_plugin_tester_arn (v : pyval) (t : test_case) : test_case :=
  {| listener_id := listener_id t; plugin_tester_arn := v;
     existing_rule_name := existing_rule_name t |}.
Definition set_existing_rule_name (v : pyval) (t : test_case) : test_case :=
  {| listener_id := listener_id t; plugin_tester_arn := plugin_tester_arn t;
     existing_rule_name := v |}.

(** The record sent to the workflow. *)
Definition trigger_event : pyval :=
  PDict [("eventHook", PStr "postValidate");
         ("pluginTitle", PStr "PythonMinimalPlugin")].

(** The local function of the test method, lines 119 to 124.  [and]
    evaluates its right operand only when the left one is true. *)
Definition _matched_event_is_correct (received : string) : pyresult bool :=
  event ← Json.loads received;
  source ← getitem event "source";
  if eq_str source "video.plugin.PythonMinimalPlugin"
  then detail_type ← getitem event "detail-type";
       Return (eq_str detail_type "plugin-complete")
  else Return false.

(** [self.assertTrue(expr)]. *)
Definition assertTrue {S} (expr : bool) : py S unit :=
  if expr then mret tt
  else eval (Raise (Exn AssertionError "False is not true")).

Section TestCase.

Variable cls : class_attrs.
Variable float_repr : string -> string.

Definition setUp : method unit :=
  stack_outputs ← perform
    (fun _ _ => GetStackOutputs (plugin_tester_stack_name cls)
                  ["PluginLifecycleWorkflow"; "PluginSuccessEventRuleName"])
    (get_stack_outputs (iatk_client cls) (plugin_tester_stack_name cls)
       ["PluginLifecycleWorkflow"; "PluginSuccessEventRuleName"]);
  arn ← eval (getitem (PDict stack_outputs) "PluginLifecycleWorkflow");
  setattr (set_plugin_tester_arn arn);;
  rule ← eval (getitem (PDict stack_outputs) "PluginSuccessEventRuleName");
  setattr (set_existing_rule_name rule);;
  rule_name ← getattr existing_rule_name;
  add_listener_output ← perform
    (fun _ r => AddListener "default" rule_name r)
    (add_listener (iatk_client cls) "default" rule_name);
  setattr (set_listener_id add_listener_output).

Definition tearDown : method unit :=
  id ← getattr listener_id;
  perform (fun _ _ => RemoveListeners [id])
          (remove_listeners (iatk_client cls) [id]).

Definition test_minimal_plugin_event_published_waiting : method unit :=
  arn ← getattr plugin_tester_arn;
  input ← eval (Json.dumps float_repr trigger_event);
  perform (fun _ _ => StartExecution arn input)
          (start_execution (step_functions_client cls) arn input);;
  id ← getattr listener_id;
  event_was_matched ← perform
    (fun _ r => WaitUntilEventMatched id (SLA_TIMEOUT_SECONDS cls) r)
    (wait_until_event_matched (iatk_client cls) id
       _matched_event_is_correct (SLA_TIMEOUT_SECONDS cls));
  assertTrue event_was_matched.

(** ** The [unittest] runner *)

(** What [TestCase.run] collects: [success] is cleared by any exception,
    an [AssertionError] is a failure, any other exception an error. *)
Record _Outcome : Type := {
  success : bool;
  failures : list pyexn;
  errors : list pyexn
}.

Definition is_AssertionError (e : pyexn) : bool :=
  match exn_class e with AssertionError => true | _ => false end.

Definition is_KeyboardInterrupt (e : pyexn) : bool :=
  match exn_class e with KeyboardInterrupt => true | _ => false end.

Definition record_exception (e : pyexn) (o : _Outcome) : _Outcome :=
  if is_AssertionError e
  then {| success := false; failures := failures o ++ [e]; errors := errors o |}
  else {| success := false; failures := failures o; errors := errors o ++ [e] |}.

(** [with outcome.testPartExecutor(self): part()]: [KeyboardInterrupt] is
    raised again, any other exception is recorded and the run goes on. *)
Definition testPartExecutor (part : method unit) (o : _Outcome)
  : method _Outcome := fun st =>
  match part st with
  | (Return _, st') => (Return o, st')
  | (Raise e, st') =>
      if is_KeyboardInterrupt e then (Raise e, st')
      else (Return (record_exception e o), st')
  end.

(** [TestCase.run] for this test: [setUp]; when it passed, the test method
    and then [tearDown]. *)
Definition run : method _Outcome :=
  o ← testPartExecutor setUp
        {| success := true; failures := []; errors := [] |};
  if success o then
    o1 ← testPartExecutor test_minimal_plugin_event_published_waiting o;
    testPartExecutor tearDown o1
  else mret o.

(** A listener is added on the default bus, as a clone of the rule the
    stack names; this holds of any other call. *)
Definition clones_stack_rule (c : call) : Prop :=
  match c with
  | AddListener bus rule _ =>
      bus = "default"
      /\ exists outputs,
           get_stack_outputs (iatk_client cls) (plugin_tester_stack_name cls)
             ["PluginLifecycleWorkflow"; "PluginSuccessEventRuleName"]
           = Return outputs
           /\ dict_get "PluginSuccessEventRuleName" outputs = Some rule
  | _ => True
  end.

Definition run_test : pyresult _Outcome * trace :=
  let '(r, (_, tr)) := run (fresh_test_case, []) in (r, tr).

End TestCase.

(** ** Listener accounting *)

(** The handles the calls of a trace acquired: one for each [add_listener]
    that returned. *)
Fixpoint acquired (tr : trace) : list pyval :=
  match tr with
  | [] => []
  | AddListener _ _ (Return id) :: tr' => id :: acquired tr'
  | _ :: tr' => acquired tr'
  end.

(** The handles the calls of a trace released: the ids of each
    [remove_listeners]. *)
Fixpoint released (tr : trace) : list pyval :=
  match tr with
  | [] => []
  | RemoveListeners ids :: tr' => ids ++ released tr'
  | _ :: tr' => released tr'
  end.

(** The number of [add_listener] calls that returned a handle, and the
    number of [remove_listeners] calls. *)
Definition acquire_count (tr : trace) : nat := List.length (acquired tr).

Fixpoint release_count (tr : trace) : nat :=
  match tr with
  | [] => 0
  | RemoveListeners _ :: tr' => S (release_count tr')
  | _ :: tr' => release_count tr'
  end.

(** The executions a trace started: workflow and input of each
    [start_execution]. *)
Fixpoint started (tr : trace) : list (pyval * string) :=
  match tr with
  | [] => []
  | StartExecution arn input :: tr' => (arn, input) :: started tr'
  | _ :: tr' => started tr'
  end.

(** ** The wait primitive *)

(** Modelled from the spec: [wait_until_event_matched] belongs to the
    [aws_iatk] package, whose code is not part of the test.  The spec
    gives its contract: poll the listener for incoming events up to a
    fixed deadline; feed each received event to the predicate; stop and
    succeed on the first match; fail if the deadline elapses with no
    match.  Time is counted in the units of the deadline: [feed t] is what
    the listener receives during unit [t] after the call, in order of
    arrival.  An exception of the predicate is not handled by the
    primitive and ends the wait. *)
Fixpoint first_match (assertion_fn : string -> pyresult bool)
    (events : list string) : pyresult bool :=
  match events with
  | [] => Return false
  | e :: es =>
      matched ← assertion_fn e;
      if (matched : bool) then Return true else first_match assertion_fn es
  end.

(** Modelled from the spec: the polling loop, [now] units after the call
    with [remaining] units to the deadline.  It gives the result of the
    wait and the time at which the wait ends. *)
Fixpoint wait_loop (feed : nat -> list string)
    (assertion_fn : string -> pyresult bool) (now remaining : nat)
  : pyresult bool * nat :=
  match remaining with
  | O => (Return false, now)
  | S remaining' =>
      match first_match assertion_fn (feed now) with
      | Return true => (Return true, now)
      | Return false => wait_loop feed assertion_fn (S now) remaining'
      | Raise e => (Raise e, now)
      end
  end.

(** Modelled from the spec: the wait primitive on a listener with the
    given feed. *)
Definition wait_until_event_matched_spec (feed : nat -> list string)
    (assertion_fn : string -> pyresult bool) (timeout_seconds : Z)
  : pyresult bool * nat :=
  wait_loop feed assertion_fn 0 (Z.to_nat timeout_seconds).

(** An [AwsIatk] client whose wait primitive is the one modelled from the
    spec, on a bus where the listener [id] receives [feed id]. *)
Definition with_spec_wait (feed : pyval -> nat -> list string)
    (c : AwsIatk) : AwsIatk :=
  {| get_stack_outputs := get_stack_outputs c;
     add_listener := add_listener c;
     remove_listeners := remove_listeners c;
     wait_until_event_matched := fun id fn timeout =>
       fst (wait_until_event_matched_spec (feed id) fn timeout) |}.

Definition set_iatk_client (c : AwsIatk) (cls : class_attrs) : class_attrs :=
  {| aws_region := aws_region cls;
     plugin_tester_stack_name := plugin_tester_stack_name cls;
     iatk_client := c;
     step_functions_client := step_functions_client cls;
     SLA_TIMEOUT_SECONDS := SLA_TIMEOUT_SECONDS cls |}.

End TestByWaiting.

(* ===================================================================== *)
(** * Sample inputs *)
(* ===================================================================== *)

(** Concrete ports, clients and payloads on which the theorems below are
    exercised. *)
Module Samples.

Import HandleStockRequest TestByWaiting.

Definition float_repr_id (lit : string) : string := lit.

Definition stock_found (stockID : pyval) : pyresult pyval :=
  Return (PDict [("stock", stockID); ("price", PInt 187)]).

Definition stock_unreachable (stockID : pyval) : pyresult pyval :=
  Raise (Exn (ProviderError "ConnectionError") "connection refused").

Definition stock_as_bytes (stockID : pyval) : pyresult pyval :=
  Return (PObject "bytes").

Definition plugin_complete : string :=
  (dq "{'source': 'video.plugin.PythonMinimalPlugin', 'detail-type': 'plugin-complete', 'detail': {'id': 1}}").

Definition plugin_complete_other_detail : string :=
  (dq "{'detail': [true, null], 'detail-type': 'plugin-complete', 'region': 'eu-west-1', 'source': 'video.plugin.PythonMinimalPlugin'}").

Definition other_source : string :=
  (dq "{'source': 'video.core', 'detail-type': 'plugin-complete'}").

Definition no_detail_type : string :=
  (dq "{'source': 'video.plugin.PythonMinimalPlugin'}").

Definition iatk (on_wait : pyresult bool) : AwsIatk :=
  {| get_stack_outputs := fun _ _ =>
       Return [("PluginLifecycleWorkflow", PStr "arn:aws:states:workflow");
               ("PluginSuccessEventRuleName", PStr "plugin-success")];
     add_listener := fun _ _ => Return (PStr "listener-1");
     remove_listeners := fun _ => Return tt;
     wait_until_event_matched := fun _ _ _ => on_wait |}.

Definition sfn : StepFunctions := {| start_execution := fun _ _ => Return tt |}.

Definition cls (client : AwsIatk) : class_attrs :=
  {| aws_region := "eu-west-1";
     plugin_tester_stack_name := "plugin-tester";
     iatk_client := client;
     step_functions_client := sfn;
     SLA_TIMEOUT_SECONDS := 20 |}.

(** A bus on which the awaited event arrives during the fourth unit, after
    an unrelated one. *)
Definition feed_match (t : nat) : list string :=
  if Nat.eqb t 3 then [other_source; plugin_complete] else [].

(** A bus on which only unrelated events arrive. *)
Definition feed_silent (t : nat) : list string :=
  if Nat.eqb t 5 then [other_source] else [].

Definition environ_full : gmap string string :=
  <["PLUGIN_TESTER_STACK_NAME" := "plugin-tester"]>
    (<["AWS_REGION" := "eu-west-1"]> ∅).

Definition environ_no_stack : gmap string string :=
  <["AWS_REGION" := "eu-west-1"]> ∅.

Definition environ_no_region : gmap string string :=
  <["PLUGIN_TESTER_STACK_NAME" := "plugin-tester"]> ∅.

End Samples.

(* ===================================================================== *)
(** * Further sample inputs *)
(* ===================================================================== *)

Module MoreSamples.

Import HandleStockRequest TestByWaiting Samples.

Definition stock_interrupted (stockID : pyval) : pyresult pyval :=
  Raise (Exn KeyboardInterrupt "interrupted").

(** A port that answers with a pair, and one that answers with an integer
    of 4301 digits. *)
Definition stock_as_tuple (stockID : pyval) : pyresult pyval :=
  Return (PTuple [stockID; PInt 187]).

Definition stock_oversized (stockID : pyval) : pyresult pyval :=
  Return (PInt (10 ^ 4300)).

(** Events the predicate turns down without an error. *)
Definition numeric_source : string := dq "{'source': 5}".

Definition null_detail_type : string :=
  dq "{'source': 'video.plugin.PythonMinimalPlugin', 'detail-type': null}".

Definition json_list : string := dq "['source', 'detail-type']".

(** A client described by what each of its calls gives back. *)
Definition iatk_with (outputs : pyresult (list (string * pyval)))
    (added : pyresult pyval) (waited : pyresult bool)
    (removed : pyresult unit) : AwsIatk :=
  {| get_stack_outputs := fun _ _ => outputs;
     add_listener := fun _ _ => added;
     remove_listeners := fun _ => removed;
     wait_until_event_matched := fun _ _ _ => waited |}.

Definition both_outputs : list (string * pyval) :=
  [("PluginLifecycleWorkflow", PStr "arn:aws:states:workflow");
   ("PluginSuccessEventRuleName", PStr "plugin-success")].

Definition workflow_only : list (string * pyval) :=
  [("PluginLifecycleWorkflow", PStr "arn:aws:states:workflow")].

Definition sfn_down : StepFunctions :=
  {| start_execution := fun _ _ =>
       Raise (Exn (ProviderError "ClientError") "access denied") |}.

Definition cls_with (client : AwsIatk) (workflows : StepFunctions) : class_attrs :=
  {| aws_region := "eu-west-1";
     plugin_tester_stack_name := "plugin-tester";
     iatk_client := client;
     step_functions_client := workflows;
     SLA_TIMEOUT_SECONDS := 20 |}.

Definition no_iatk (region : string) : pyresult AwsIatk :=
  Raise (Exn (ProviderError "IatkException") "binary not found").

Definition no_boto3 (service region_name : string) : pyresult StepFunctions :=
  Raise (Exn (ProviderError "UnknownServiceError") "unknown service").

End MoreSamples.

(* ===================================================================== *)
(** * The decoder never runs out of fuel *)
(* ===================================================================== *)

Section DecoderFuel.

Import Json.

Lemma skip_ws_length (s : list ascii) :
  List.length (skip_ws s) <= List.length s.
Proof.
  induction s as [|c r IH]; cbn; [lia|].
  destruct (is_ws c); cbn; lia.
Qed.

Lemma prepend_inv (pre str rest : list ascii)
    (r : pyresult (list ascii * list ascii)) :
  prepend pre r = Return (str, rest) -> exists str', r = Return (str', rest).
Proof.
  destruct r as [[str' rest']|e]; cbn; [|discriminate].
  intros [= _ <-]. exists str'. reflexivity.
Qed.

(** A scanned string ends at its closing quote: input was consumed. *)
Lemma scanstring_progress (n : nat) :
  forall s str rest,
    List.length s <= n ->
    scanstring s = Return (str, rest) ->
    List.length rest < List.length s.
Proof.
  induction n as [|n IH]; intros s str rest Hlen;
    (destruct s as [|c r]; [discriminate|]); cbn [List.length] in Hlen; [lia|].
  assert (Hrec : forall pre s',
    List.length s' <= List.length r ->
    prepend pre (scanstring s') = Return (str, rest) ->
    List.length rest < List.length (c :: r)).
  { intros pre s' Hs' Hpre. apply prepend_inv in Hpre as [str' Hpre].
    apply IH in Hpre; [|lia]. cbn [List.length]. lia. }
  cbn [scanstring].
  destruct (Ascii.eqb c "034"); [intros [= _ <-]; cbn [List.length]; lia|].
  destruct (Ascii.eqb c "\").
  - destruct r as [|e r0]; [discriminate|].
    destruct (Ascii.eqb e "u").
    + destruct r0 as [|a [|b [|c' [|d r1]]]]; try discriminate.
      destruct (hex4 a b c' d) as [u|]; [|discriminate].
      destruct r1 as [|x [|y [|a2 [|b2 [|c2 [|d2 r2]]]]]];
        try (apply Hrec; cbn [List.length]; lia).
      destruct (is_high_surrogate u && Ascii.eqb x "\" && Ascii.eqb y "u")%bool;
        [|apply Hrec; cbn [List.length]; lia].
      destruct (hex4 a2 b2 c2 d2) as [u2|]; [|discriminate].
      destruct (is_low_surrogate u2); apply Hrec; cbn [List.length]; lia.
    + destruct (escape_char e); [|discriminate].
      apply Hrec. cbn [List.length]. lia.
  - destruct (N_of_ascii c <? 32)%N; [discriminate|].
    apply Hrec. lia.
Qed.

Lemma span_digits_length (s : list ascii) :
  List.length (snd (span_digits s)) <= List.length s.
Proof.
  induction s as [|c r IH]; cbn; [lia|].
  destruct (is_digit c); [|cbn; lia].
  destruct (span_digits r) as [ds rest]. cbn in *. lia.
Qed.

Lemma match_int_digits_progress (s ds rest : list ascii) :
  match_int_digits s = Some (ds, rest) -> List.length rest < List.length s.
Proof.
  destruct s as [|c r]; cbn; [discriminate|].
  destruct (Ascii.eqb c "0"); [intros [= _ <-]; lia|].
  destruct (is_digit c); [|discriminate].
  pose proof (span_digits_length r) as Hspan.
  destruct (span_digits r) as [ds' rest']. intros [= _ <-]. cbn in Hspan. lia.
Qed.

Lemma match_frac_length (s fr rest : list ascii) :
  match_frac s = Some (fr, rest) -> List.length rest <= List.length s.
Proof.
  destruct s as [|c r]; cbn; [discriminate|].
  destruct (Ascii.eqb c "."); [|discriminate].
  pose proof (span_digits_length r) as Hspan.
  destruct (span_digits r) as [[|d ds] rest']; [discriminate|].
  intros [= _ <-]. cbn in Hspan. lia.
Qed.

Lemma match_exp_length (s ex rest : list ascii) :
  match_exp s = Some (ex, rest) -> List.length rest <= List.length s.
Proof.
  destruct s as [|c r]; cbn; [discriminate|].
  destruct (Ascii.eqb c "e" || Ascii.eqb c "E")%bool; [|discriminate].
  assert (Hsign : List.length (snd (match_sign r)) <= List.length r).
  { destruct r as [|c' r']; cbn; [lia|].
    destruct (Ascii.eqb c' "-" || Ascii.eqb c' "+")%bool; cbn; lia. }
  destruct (match_sign r) as [sign r1]. cbn in Hsign.
  pose proof (span_digits_length r1) as Hspan.
  destruct (span_digits r1) as [[|d ds] rest']; [discriminate|].
  intros [= _ <-]. cbn in Hspan. lia.
Qed.

Lemma match_number_progress (s rest : list ascii) (num : pyresult pyval) :
  match_number s = Some (num, rest) -> List.length rest < List.length s.
Proof.
  unfold match_number.
  assert (Hminus : List.length (snd (match_minus s)) <= List.length s).
  { destruct s as [|c r]; cbn; [lia|]. destruct (Ascii.eqb c "-"); cbn; lia. }
  destruct (match_minus s) as [neg s1]. cbn in Hminus.
  destruct (match_int_digits s1) as [[ds s2]|] eqn:Hint; [|discriminate].
  apply match_int_digits_progress in Hint. cbn.
  destruct (match_frac s2) as [[fr s3]|] eqn:Hfrac.
  - apply match_frac_length in Hfrac.
    destruct (match_exp s3) as [[ex s4]|] eqn:Hexp.
    + apply match_exp_length in Hexp. intros [= _ <-]. lia.
    + intros [= _ <-]. lia.
  - destruct (match_exp s2) as [[ex s3]|] eqn:Hexp.
    + apply match_exp_length in Hexp. intros [= _ <-]. lia.
    + intros [= _ <-]. lia.
Qed.

Lemma strip_prefix_length (word s rest : list ascii) :
  strip_prefix word s = Some rest ->
  List.length rest + List.length word = List.length s.
Proof.
  revert s. induction word as [|w word IH]; intros s; cbn.
  - intros [= <-]. lia.
  - destruct s as [|c s']; [discriminate|].
    destruct (Ascii.eqb w c); [|discriminate].
    intros Hs. apply IH in Hs. cbn. lia.
Qed.

Lemma match_constant_progress (table : list (string * pyval))
    (s rest : list ascii) (v : pyval) :
  Forall (fun entry => entry.1 <> EmptyString) table ->
  match_constant table s = Some (v, rest) ->
  List.length rest < List.length s.
Proof.
  induction 1 as [|[word v'] table Hword _ IH]; cbn; [discriminate|].
  destruct (strip_prefix _ s) as [rest'|] eqn:Hstrip; [|exact IH].
  intros [= _ <-]. apply strip_prefix_length in Hstrip.
  destruct word; [contradiction|]. cbn in Hstrip. lia.
Qed.

Lemma literals_nonempty : Forall (fun entry => entry.1 <> EmptyString) literals.
Proof. repeat constructor; discriminate. Qed.

Lemma float_constants_nonempty :
  Forall (fun entry => entry.1 <> EmptyString) float_constants.
Proof. repeat constructor; discriminate. Qed.

Lemma prepend_raise (pre : list ascii) (e : pyexn)
    (r : pyresult (list ascii * list ascii)) :
  prepend pre r = Raise e -> r = Raise e.
Proof. destruct r as [[str' rest']|e']; cbn; [discriminate|]. intros [= <-]. reflexivity. Qed.

(** [scanstring] fails with a decoding error only. *)
Lemma scanstring_raise (n : nat) :
  forall s e,
    List.length s <= n ->
    scanstring s = Raise e ->
    exn_class e = JSONDecodeError.
Proof.
  induction n as [|n IH]; intros s e Hlen;
    (destruct s as [|c r]; [intros [= <-]; reflexivity|]);
    cbn [List.length] in Hlen; [lia|].
  assert (Hrec : forall pre s',
    List.length s' <= List.length r ->
    prepend pre (scanstring s') = Raise e ->
    exn_class e = JSONDecodeError).
  { intros pre s' Hs' Hpre. apply prepend_raise in Hpre.
    apply IH in Hpre; [exact Hpre|lia]. }
  cbn [scanstring].
  destruct (Ascii.eqb c "034"); [discriminate|].
  destruct (Ascii.eqb c "\").
  - destruct r as [|e0 r0]; [intros [= <-]; reflexivity|].
    destruct (Ascii.eqb e0 "u").
    + destruct r0 as [|a [|b [|c' [|d r1]]]]; try (intros [= <-]; reflexivity).
      destruct (hex4 a b c' d) as [u|]; [|intros [= <-]; reflexivity].
      destruct r1 as [|x [|y [|a2 [|b2 [|c2 [|d2 r2]]]]]];
        try (apply Hrec; cbn [List.length]; lia).
      destruct (is_high_surrogate u && Ascii.eqb x "\" && Ascii.eqb y "u")%bool;
        [|apply Hrec; cbn [List.length]; lia].
      destruct (hex4 a2 b2 c2 d2) as [u2|]; [|intros [= <-]; reflexivity].
      destruct (is_low_surrogate u2); apply Hrec; cbn [List.length]; lia.
    + destruct (escape_char e0); [|intros [= <-]; reflexivity].
      apply Hrec. cbn [List.length]. lia.
  - destruct (N_of_ascii c <? 32)%N; [intros [= <-]; reflexivity|].
    apply Hrec. lia.
Qed.

(** A number converts to a value or fails with [ValueError]. *)
Lemma match_number_raise (s rest : list ascii) (e : pyexn) :
  match_number s = Some (Raise e, rest) -> exn_class e = ValueError.
Proof.
  unfold match_number.
  destruct (match_minus s) as [neg s1].
  destruct (match_int_digits s1) as [[ds s2]|]; [|discriminate]. cbn.
  destruct (match_frac s2) as [[fr s3]|].
  - destruct (match_exp s3) as [[ex s4]|]; discriminate.
  - destruct (match_exp s2) as [[ex s3]|]; [discriminate|].
    unfold int_of_digits. destruct (_ <? _)%nat; [|discriminate].
    intros [= <- _]. reflexivity.
Qed.

Ltac unfold_scan := cbn [scan_once object_loop array_loop mbind pyresult_bind].

(** Each of the three scanning functions consumes input when it returns. *)
Lemma scan_progress (fuel : nat) :
  (forall s v rest,
     scan_once fuel s = Return (v, rest) -> List.length rest < List.length s)
  /\ (forall s acc v rest,
        object_loop fuel s acc = Return (v, rest) ->
        List.length rest < List.length s)
  /\ (forall s acc v rest,
        array_loop fuel s acc = Return (v, rest) ->
        List.length rest < List.length s).
Proof.
  induction fuel as [|n (IHscan & IHobj & IHarr)];
    [repeat split; intros; discriminate|].
  split; [|split].
  - intros s v rest. unfold_scan.
    destruct s as [|c r]; [discriminate|].
    destruct (Ascii.eqb c "034").
    { destruct (scanstring r) as [[str rest']|e] eqn:Hstr; [|discriminate].
      apply (scanstring_progress _ _ _ _ (le_n _)) in Hstr.
      unfold_scan. intros [= _ <-]. cbn [List.length]. lia. }
    destruct (Ascii.eqb c "{").
    { pose proof (skip_ws_length r) as Hws.
      destruct (skip_ws r) as [|c1 r1]; [discriminate|]. cbn [List.length] in *.
      destruct (Ascii.eqb c1 "}"); [intros [= _ <-]; lia|].
      destruct (Ascii.eqb c1 "034"); [|discriminate].
      intros Hobj. apply IHobj in Hobj. lia. }
    destruct (Ascii.eqb c "[").
    { pose proof (skip_ws_length r) as Hws.
      destruct (skip_ws r) as [|c1 r1]; [discriminate|]. cbn [List.length] in *.
      destruct (Ascii.eqb c1 "]"); [intros [= _ <-]; lia|].
      intros Harr. apply IHarr in Harr. cbn [List.length] in Harr. lia. }
    destruct (match_constant literals (c :: r)) as [[v' rest']|] eqn:Hlit.
    { apply (match_constant_progress _ _ _ _ literals_nonempty) in Hlit.
      intros [= _ <-]. exact Hlit. }
    destruct (match_number (c :: r)) as [[num rest']|] eqn:Hnum.
    { apply match_number_progress in Hnum.
      destruct num; unfold_scan; [|discriminate]. intros [= _ <-]. exact Hnum. }
    destruct (match_constant float_constants (c :: r)) as [[v' rest']|] eqn:Hflt;
      [|discriminate].
    apply (match_constant_progress _ _ _ _ float_constants_nonempty) in Hflt.
    intros [= _ <-]. exact Hflt.
  - intros s acc v rest. unfold_scan.
    destruct (scanstring s) as [[key r1]|e] eqn:Hkey; [|discriminate].
    apply (scanstring_progress _ _ _ _ (le_n _)) in Hkey. unfold_scan.
    pose proof (skip_ws_length r1) as Hws1.
    destruct (skip_ws r1) as [|c2 r2]; [discriminate|]. cbn [List.length] in *.
    destruct (Ascii.eqb c2 ":"); [|discriminate].
    pose proof (skip_ws_length r2) as Hws2.
    destruct (scan_once n (skip_ws r2)) as [[v' r3]|e] eqn:Hval; [|discriminate].
    apply IHscan in Hval. unfold_scan.
    pose proof (skip_ws_length r3) as Hws3.
    destruct (skip_ws r3) as [|c4 r4]; [discriminate|]. cbn [List.length] in *.
    destruct (Ascii.eqb c4 "}"); [intros [= _ <-]; lia|].
    destruct (Ascii.eqb c4 ","); [|discriminate].
    pose proof (skip_ws_length r4) as Hws4.
    destruct (skip_ws r4) as [|c5 r5]; [discriminate|]. cbn [List.length] in *.
    destruct (Ascii.eqb c5 "034"); [|discriminate].
    intros Hobj. apply IHobj in Hobj. lia.
  - intros s acc v rest. unfold_scan.
    destruct (scan_once n s) as [[v' r1]|e] eqn:Hval; [|discriminate].
    apply IHscan in Hval. unfold_scan.
    pose proof (skip_ws_length r1) as Hws1.
    destruct (skip_ws r1) as [|c2 r2]; [discriminate|]. cbn [List.length] in *.
    destruct (Ascii.eqb c2 "]"); [intros [= _ <-]; lia|].
    destruct (Ascii.eqb c2 ","); [|discriminate].
    pose proof (skip_ws_length r2) as Hws2.
    intros Harr. apply IHarr in Harr. lia.
Qed.

(** With fuel above twice the length of the input (one more for
    [array_loop], which calls [scan_once] on the input it was given), no
    call finds the fuel spent. *)
Lemma scan_fuel (fuel : nat) :
  (forall s e,
     2 * List.length s < fuel ->
     scan_once fuel s = Raise e -> exn_class e <> RecursionError)
  /\ (forall s acc e,
        2 * List.length s < fuel ->
        object_loop fuel s acc = Raise e -> exn_class e <> RecursionError)
  /\ (forall s acc e,
        2 * List.length s + 1 < fuel ->
        array_loop fuel s acc = Raise e -> exn_class e <> RecursionError).
Proof.
  induction fuel as [|n (IHscan & IHobj & IHarr)];
    [repeat split; intros; lia|].
  assert (Hdec : forall e : pyexn,
    exn_class e = JSONDecodeError -> exn_class e <> RecursionError)
    by (intros e ->; discriminate).
  split; [|split].
  - intros s e Hfuel. unfold_scan.
    destruct s as [|c r]; [intros [= <-]; discriminate|].
    cbn [List.length] in Hfuel.
    destruct (Ascii.eqb c "034").
    { destruct (scanstring r) as [[str rest']|e'] eqn:Hstr; unfold_scan;
        [discriminate|].
      intros [= <-]. apply Hdec.
      exact (scanstring_raise _ _ _ (le_n _) Hstr). }
    destruct (Ascii.eqb c "{").
    { pose proof (skip_ws_length r) as Hws.
      destruct (skip_ws r) as [|c1 r1]; [intros [= <-]; discriminate|].
      cbn [List.length] in *.
      destruct (Ascii.eqb c1 "}"); [discriminate|].
      destruct (Ascii.eqb c1 "034"); [|intros [= <-]; discriminate].
      apply IHobj. lia. }
    destruct (Ascii.eqb c "[").
    { pose proof (skip_ws_length r) as Hws.
      destruct (skip_ws r) as [|c1 r1]; [intros [= <-]; discriminate|].
      cbn [List.length] in *.
      destruct (Ascii.eqb c1 "]"); [discriminate|].
      apply IHarr. cbn [List.length]. lia. }
    destruct (match_constant literals (c :: r)) as [[v' rest']|]; [discriminate|].
    destruct (match_number (c :: r)) as [[num rest']|] eqn:Hnum.
    { destruct num as [v'|e']; unfold_scan; [discriminate|].
      intros [= <-]. apply match_number_raise in Hnum. rewrite Hnum. discriminate. }
    destruct (match_constant float_constants (c :: r)) as [[v' rest']|];
      [discriminate|intros [= <-]; discriminate].
  - intros s acc e Hfuel. unfold_scan.
    destruct (scanstring s) as [[key r1]|e'] eqn:Hkey; unfold_scan.
    2:{ intros [= <-]. apply Hdec. exact (scanstring_raise _ _ _ (le_n _) Hkey). }
    apply (scanstring_progress _ _ _ _ (le_n _)) in Hkey.
    pose proof (skip_ws_length r1) as Hws1.
    destruct (skip_ws r1) as [|c2 r2]; [intros [= <-]; discriminate|].
    cbn [List.length] in *.
    destruct (Ascii.eqb c2 ":"); [|intros [= <-]; discriminate].
    pose proof (skip_ws_length r2) as Hws2.
    destruct (scan_once n (skip_ws r2)) as [[v' r3]|e'] eqn:Hval; unfold_scan.
    2:{ intros [= <-]. eapply IHscan; [|exact Hval]. lia. }
    apply (proj1 (scan_progress n)) in Hval.
    pose proof (skip_ws_length r3) as Hws3.
    destruct (skip_ws r3) as [|c4 r4]; [intros [= <-]; discriminate|].
    cbn [List.length] in *.
    destruct (Ascii.eqb c4 "}"); [discriminate|].
    destruct (Ascii.eqb c4 ","); [|intros [= <-]; discriminate].
    pose proof (skip_ws_length r4) as Hws4.
    destruct (skip_ws r4) as [|c5 r5]; [intros [= <-]; discriminate|].
    cbn [List.length] in *.
    destruct (Ascii.eqb c5 "034"); [|intros [= <-]; discriminate].
    apply IHobj. lia.
  - intros s acc e Hfuel. unfold_scan.
    destruct (scan_once n s) as [[v' r1]|e'] eqn:Hval; unfold_scan.
    2:{ intros [= <-]. eapply IHscan; [|exact Hval]. lia. }
    apply (proj1 (scan_progress n)) in Hval.
    pose proof (skip_ws_length r1) as Hws1.
    destruct (skip_ws r1) as [|c2 r2]; [intros [= <-]; discriminate|].
    cbn [List.length] in *.
    destruct (Ascii.eqb c2 "]"); [discriminate|].
    destruct (Ascii.eqb c2 ","); [|intros [= <-]; discriminate].
    pose proof (skip_ws_length r2) as Hws2.
    apply IHarr. lia.
Qed.

(** The fuel of the model never ends a decoding: the bound on the calls of
    the decoder is no limit on its inputs.  The [RecursionError] of the
    interpreter, which depends on the depth of its call stack, is outside
    the model (see [loads]). *)
Lemma loads_fuel (s : string) (e : pyexn) :
  loads s = Raise e -> exn_class e <> RecursionError.
Proof.
  unfold loads. destruct (starts_with_bom _); [intros [= <-]; discriminate|].
  pose proof (skip_ws_length (list_ascii_of_string s)) as Hws.
  destruct (scan_once _ _) as [[v rest]|e'] eqn:Hscan;
    cbn [mbind pyresult_bind].
  - destruct (skip_ws rest); [discriminate|intros [= <-]; discriminate].
  - intros [= <-]. apply (proj1 (scan_fuel _) _ _) in Hscan; [exact Hscan|].
    unfold enough_fuel. lia.
Qed.

End DecoderFuel.

(* ===================================================================== *)
(** * Properties of the stock request handler *)
(* ===================================================================== *)

Section HandlerProperties.

Import HandleStockRequest.

Variable retrieveStock : pyval -> pyresult pyval.
Variable float_repr : string -> string.

(** Unfold the handler down to its port calls and the serializer. *)
Ltac run_handler :=
  cbv beta iota zeta delta
    [getStocksRequest getStocksRequest_body try_except_Exception try_block
     load store print set_stockData set_response stockData response
     eval get_state modify mbind mret py_bind py_ret fst snd].

(** Serializing a one-entry dict serializes its value. *)
Lemma dumps_message (v : pyval) (body : string) :
  Json.dumps float_repr (PDict [("message", v)]) = Return body ->
  exists t, Json.dumps float_repr v = Return t
            /\ body = (dq "{'message': ") +:+ t +:+ "}".
Proof.
  cbn [Json.dumps mbind pyresult_bind].
  destruct (Json.dumps float_repr v) as [t|e]; cbn [mbind pyresult_bind];
    [|discriminate].
  intros [= <-]. exists t. split; reflexivity.
Qed.

(** C2: when [retrieveStock] raises an instance of [Exception], the
    handler prints the error and then fails to return an envelope: reading
    [response], which was never assigned, raises [UnboundLocalError]. *)
Theorem getStocksRequest_retrieval_error (stockID : pyval) (e : pyexn) :
  retrieveStock stockID = Raise e ->
  is_Exception e = true ->
  getStocksRequest retrieveStock float_repr stockID
  = (Raise (Exn UnboundLocalError "response"), [[OfExn e]]).
Proof.
  intros Hraise Hcls.
  run_handler. rewrite Hraise, Hcls. reflexivity.
Qed.

(** C3, as amended: when [retrieveStock] returns [v] and [{"message": v}]
    serializes to [body], the handler returns the envelope with
    [statusCode] 200 and that [body], which is the serialized value wrapped
    in the [message] entry. *)
Theorem getStocksRequest_success (stockID v : pyval) (body : string) :
  retrieveStock stockID = Return v ->
  Json.dumps float_repr (PDict [("message", v)]) = Return body ->
  getStocksRequest retrieveStock float_repr stockID
  = (Return (PDict [("statusCode", PInt 200); ("body", PStr body)]),
     [[OfVal (PStr "Stock Data"); OfVal v]])
  /\ exists t, Json.dumps float_repr v = Return t
               /\ body = (dq "{'message': ") +:+ t +:+ "}".
Proof.
  intros Hret Hbody. split; [|exact (dumps_message v body Hbody)].
  run_handler. rewrite Hret. run_handler. rewrite Hbody. reflexivity.
Qed.

End HandlerProperties.

(* ===================================================================== *)
(** * Properties of the match predicate *)
(* ===================================================================== *)

Section PredicateProperties.

Import TestByWaiting.

Lemma eq_str_true (v : pyval) (s : string) : eq_str v s = true <-> v = PStr s.
Proof.
  destruct v; cbn; try (split; [discriminate | intros [=]]).
  rewrite String.eqb_eq. split; [intros -> | intros [= ->]]; reflexivity.
Qed.

(** The predicate on a payload that decodes to an object: the two lookups
    of the source, the second one made only when the first comparison
    holds. *)
Lemma matched_on_object (received : string) (ev : list (string * pyval)) :
  Json.loads received = Return (PDict ev) ->
  _matched_event_is_correct received =
    match dict_get "source" ev with
    | None => Raise (Exn KeyError "source")
    | Some source =>
        if eq_str source "video.plugin.PythonMinimalPlugin" then
          match dict_get "detail-type" ev with
          | None => Raise (Exn KeyError "detail-type")
          | Some detail_type => Return (eq_str detail_type "plugin-complete")
          end
        else Return false
    end.
Proof.
  intros Hloads. unfold _matched_event_is_correct. rewrite Hloads.
  cbv beta iota delta [mbind pyresult_bind getitem].
  destruct (dict_get "source" ev) as [source|]; [|reflexivity].
  destruct (eq_str source _); [|reflexivity].
  destruct (dict_get "detail-type" ev); reflexivity.
Qed.

(** The predicate returns only on a payload that decodes to an object. *)
Lemma matched_returns_object (received : string) (b : bool) :
  _matched_event_is_correct received = Return b ->
  exists ev, Json.loads received = Return (PDict ev).
Proof.
  unfold _matched_event_is_correct.
  destruct (Json.loads received) as [v|e]; [|discriminate].
  destruct v; cbn; try discriminate. intros _. eexists. reflexivity.
Qed.

(** The strings on which the predicate returns. *)
Lemma matched_returns_iff_decodes (received : string) :
  (exists b, _matched_event_is_correct received = Return b)
  <->
  (exists ev, Json.loads received = Return (PDict ev)
     /\ is_Some (dict_get "source" ev)
     /\ (dict_get "source" ev = Some (PStr "video.plugin.PythonMinimalPlugin")
         -> is_Some (dict_get "detail-type" ev))).
Proof.
  split.
  - intros [b Hb]. destruct (matched_returns_object _ _ Hb) as [ev Hev].
    exists ev. split; [exact Hev|].
    rewrite (matched_on_object _ _ Hev) in Hb.
    destruct (dict_get "source" ev) as [source|]; [|discriminate].
    split; [eexists; reflexivity|].
    intros [= ->]. cbn in Hb.
    destruct (dict_get "detail-type" ev); [eexists; reflexivity|discriminate].
  - intros (ev & Hev & [source Hsrc] & Hdt).
    rewrite (matched_on_object _ _ Hev), Hsrc.
    destruct (eq_str source _) eqn:Heq; [|eexists; reflexivity].
    apply eq_str_true in Heq. subst source.
    destruct (Hdt Hsrc) as [dt ->]. eexists; reflexivity.
Qed.

(** C9, as amended: the predicate returns a boolean exactly on the payloads
    that decode to a JSON object holding a [source] key and, when that
    source is the expected one, a [detail-type] key; and it raises an
    exception exactly on every other string. *)
Theorem matched_event_returns_iff (received : string) :
  ((exists b, _matched_event_is_correct received = Return b)
   <->
   (exists ev, Json.loads received = Return (PDict ev)
      /\ is_Some (dict_get "source" ev)
      /\ (dict_get "source" ev = Some (PStr "video.plugin.PythonMinimalPlugin")
          -> is_Some (dict_get "detail-type" ev))))
  /\ ((exists e, _matched_event_is_correct received = Raise e)
      <->
      ~ (exists ev, Json.loads received = Return (PDict ev)
           /\ is_Some (dict_get "source" ev)
           /\ (dict_get "source" ev
               = Some (PStr "video.plugin.PythonMinimalPlugin")
               -> is_Some (dict_get "detail-type" ev)))).
Proof.
  pose proof (matched_returns_iff_decodes received) as Hiff.
  split; [exact Hiff|]. split.
  - intros [e He] Hdecodes. apply Hiff in Hdecodes as [b Hb].
    rewrite He in Hb. discriminate Hb.
  - intros Hnot. destruct (_matched_event_is_correct received) as [b|e] eqn:Hm.
    + destruct Hnot. apply Hiff. exists b. reflexivity.
    + exists e. reflexivity.
Qed.

(** C10: two payloads that decode to objects with the same [source] and the
    same [detail-type] get the same answer from the predicate, and that
    answer is a boolean when both fields are there. *)
Theorem matched_event_depends_on_two_fields
    (received1 received2 : string) (ev1 ev2 : list (string * pyval)) :
  Json.loads received1 = Return (PDict ev1) ->
  Json.loads received2 = Return (PDict ev2) ->
  dict_get "source" ev1 = dict_get "source" ev2 ->
  dict_get "detail-type" ev1 = dict_get "detail-type" ev2 ->
  _matched_event_is_correct received1 = _matched_event_is_correct received2
  /\ (is_Some (dict_get "source" ev1) ->
      is_Some (dict_get "detail-type" ev1) ->
      exists b, _matched_event_is_correct received1 = Return b).
Proof.
  intros H1 H2 Hsrc Hdt.
  rewrite (matched_on_object _ _ H1), (matched_on_object _ _ H2).
  split; [rewrite Hsrc, Hdt; reflexivity|].
  intros [source ->] [dt ->].
  destruct (eq_str source _); eexists; reflexivity.
Qed.

End PredicateProperties.

(* ===================================================================== *)
(** * Properties of the class body *)
(* ===================================================================== *)

Section ClassBodyProperties.

Import TestByWaiting.

Variable new_AwsIatk : string -> pyresult AwsIatk.
Variable boto3_client : string -> string -> pyresult StepFunctions.

Ltac run_class_body :=
  cbv beta iota zeta delta
    [load_class class_body read_environment perform eval
     mbind mret py_bind py_ret fst snd].

(** A class that was loaded has the deadline of line 39. *)
Lemma loaded_class_deadline (environ : gmap string string)
    (cls : class_attrs) (tr : trace) :
  load_class new_AwsIatk boto3_client environ = (Return cls, tr) ->
  SLA_TIMEOUT_SECONDS cls = 20%Z.
Proof.
  run_class_body.
  destruct (environ !! "AWS_REGION") as [region|]; [|discriminate].
  destruct (environ !! "PLUGIN_TESTER_STACK_NAME") as [stack|]; [|discriminate].
  destruct (new_AwsIatk region); [|discriminate].
  destruct (boto3_client "stepfunctions" region); [|discriminate].
  intros [= <- _]. reflexivity.
Qed.

(** C7: without [AWS_REGION], or with it but without
    [PLUGIN_TESTER_STACK_NAME], loading the class raises at once and no
    client has been constructed; with both, reading the environment
    completes and the first thing done next is to construct the IATK
    client for that region. *)
Theorem class_body_requires_environment (environ : gmap string string) :
  (environ !! "AWS_REGION" = None ->
   load_class new_AwsIatk boto3_client environ
   = (Raise (Exn Exception "AWS_REGION environment variable is required"), []))
  /\ (is_Some (environ !! "AWS_REGION") ->
      environ !! "PLUGIN_TESTER_STACK_NAME" = None ->
      load_class new_AwsIatk boto3_client environ
      = (Raise (Exn Exception
                  "PLUGIN_TESTER_STACK_NAME environment variable is required"),
         []))
  /\ (forall region stack,
      environ !! "AWS_REGION" = Some region ->
      environ !! "PLUGIN_TESTER_STACK_NAME" = Some stack ->
      read_environment environ = Return (region, stack)
      /\ exists tr : trace,
           snd (load_class new_AwsIatk boto3_client environ)
           = NewAwsIatk region :: tr).
Proof.
  split; [|split; [|intros region stack Hregion Hstack; split]].
  - intros Hregion. run_class_body. rewrite Hregion. reflexivity.
  - intros [region Hregion] Hstack. run_class_body.
    rewrite Hregion, Hstack. reflexivity.
  - unfold read_environment. rewrite Hregion, Hstack. reflexivity.
  - run_class_body. rewrite Hregion, Hstack.
    destruct (new_AwsIatk region); [|eexists; reflexivity].
    destruct (boto3_client "stepfunctions" region); eexists; reflexivity.
Qed.

End ClassBodyProperties.

(* ===================================================================== *)
(** * Properties of the wait primitive *)
(* ===================================================================== *)

Section WaitProperties.

Import TestByWaiting.

Variable feed : nat -> list string.
Variable assertion_fn : string -> pyresult bool.

Lemma first_match_none (events : list string) :
  (forall e, In e events -> assertion_fn e = Return false) ->
  first_match assertion_fn events = Return false.
Proof.
  induction events as [|e es IH]; intros Hall; [reflexivity|].
  cbn. rewrite (Hall e (or_introl eq_refl)). cbn.
  apply IH. intros e' He'. apply Hall. right. exact He'.
Qed.

Lemma first_match_found (pre post : list string) (e : string) :
  (forall e', In e' pre -> assertion_fn e' = Return false) ->
  assertion_fn e = Return true ->
  first_match assertion_fn (pre ++ e :: post) = Return true.
Proof.
  induction pre as [|p pre IH]; intros Hpre He; cbn.
  - rewrite He. reflexivity.
  - rewrite (Hpre p (or_introl eq_refl)). cbn.
    apply IH; [|exact He]. intros e' He'. apply Hpre. right. exact He'.
Qed.

(** With no match in the units left, the loop runs to the deadline. *)
Lemma wait_loop_no_match (remaining now : nat) :
  (forall t e, now <= t < now + remaining -> In e (feed t) ->
               assertion_fn e = Return false) ->
  wait_loop feed assertion_fn now remaining = (Return false, now + remaining).
Proof.
  revert now. induction remaining as [|r IH]; intros now Hnone; cbn.
  - f_equal. lia.
  - rewrite first_match_none by (intros e He; apply (Hnone now); [lia|exact He]).
    rewrite IH; [f_equal; lia|].
    intros t e Ht He. apply (Hnone t); [lia|exact He].
Qed.

(** With the first match [k] units ahead and the deadline further away,
    the loop stops at the match. *)
Lemma wait_loop_match (k remaining now : nat) :
  k < remaining ->
  (forall t e, now <= t < now + k -> In e (feed t) ->
               assertion_fn e = Return false) ->
  first_match assertion_fn (feed (now + k)) = Return true ->
  wait_loop feed assertion_fn now remaining = (Return true, now + k).
Proof.
  revert remaining now. induction k as [|k IH]; intros remaining now Hk Hnone Hhit.
  - destruct remaining as [|r]; [lia|]. cbn.
    replace (now + 0) with now in * by lia. rewrite Hhit. reflexivity.
  - destruct remaining as [|r]; [lia|]. cbn.
    rewrite first_match_none by (intros e He; apply (Hnone now); [lia|exact He]).
    replace (now + S k) with (S now + k) in * by lia.
    apply IH; [lia| |exact Hhit].
    intros t e Ht He. apply (Hnone t); [lia|exact He].
Qed.

(** C4: when the first event the predicate accepts arrives during unit [t],
    before the deadline, the wait returns true at [t], with the rest of
    the deadline not waited for. *)
Theorem wait_returns_at_first_match (timeout_seconds : Z) (t : nat)
    (pre post : list string) (e : string) :
  (Z.of_nat t < timeout_seconds)%Z ->
  feed t = pre ++ e :: post ->
  assertion_fn e = Return true ->
  (forall e', In e' pre -> assertion_fn e' = Return false) ->
  (forall t' e', t' < t -> In e' (feed t') -> assertion_fn e' = Return false) ->
  wait_until_event_matched_spec feed assertion_fn timeout_seconds
  = (Return true, t)
  /\ t < Z.to_nat timeout_seconds.
Proof.
  intros Ht Hfeed He Hpre Hbefore.
  assert (Hlt : t < Z.to_nat timeout_seconds) by lia.
  split; [|exact Hlt].
  unfold wait_until_event_matched_spec.
  apply (wait_loop_match t (Z.to_nat timeout_seconds) 0 Hlt).
  - intros t' e' Ht' He'. apply (Hbefore t'); [lia|exact He'].
  - cbn. rewrite Hfeed. apply first_match_found; assumption.
Qed.

(** The wait with no match, for any deadline. *)
Lemma wait_no_match (timeout_seconds : Z) :
  (forall t e, t < Z.to_nat timeout_seconds -> In e (feed t) ->
               assertion_fn e = Return false) ->
  wait_until_event_matched_spec feed assertion_fn timeout_seconds
  = (Return false, Z.to_nat timeout_seconds).
Proof.
  intros Hnone. unfold wait_until_event_matched_spec.
  apply (wait_loop_no_match (Z.to_nat timeout_seconds) 0).
  intros t e Ht He. apply (Hnone t); [lia|exact He].
Qed.

(** C5: with the deadline of the loaded class, 20, and no event the
    predicate accepts, the wait returns false, and it does so when the 20
    units have elapsed. *)
Theorem wait_times_out_at_deadline
    (new_AwsIatk : string -> pyresult AwsIatk)
    (boto3_client : string -> string -> pyresult StepFunctions)
    (environ : gmap string string) (cls : class_attrs) (tr : trace) :
  load_class new_AwsIatk boto3_client environ = (Return cls, tr) ->
  (forall t e, t < 20 -> In e (feed t) -> assertion_fn e = Return false) ->
  SLA_TIMEOUT_SECONDS cls = 20%Z
  /\ wait_until_event_matched_spec feed assertion_fn (SLA_TIMEOUT_SECONDS cls)
     = (Return false, 20).
Proof.
  intros Hload Hnone.
  pose proof (loaded_class_deadline _ _ _ _ _ Hload) as Hsla.
  split; [exact Hsla|]. rewrite Hsla.
  apply (wait_no_match 20). exact Hnone.
Qed.

End WaitProperties.

(* ===================================================================== *)
(** * Properties of the test case *)
(* ===================================================================== *)

Section TestCaseProperties.

Import TestByWaiting.

Variable cls : class_attrs.
Variable float_repr : string -> string.

Ltac run_method :=
  cbv beta iota zeta delta
    [setUp tearDown test_minimal_plugin_event_published_waiting
     run run_test testPartExecutor assertTrue
     perform eval getattr setattr get_state modify
     mbind mret py_bind py_ret fst snd
     set_listener_id set_plugin_tester_arn set_existing_rule_name
     listener_id plugin_tester_arn existing_rule_name] in *.

(** The text sent to the workflow. *)
Lemma dumps_trigger_event :
  Json.dumps float_repr trigger_event
  = Return (dq "{'eventHook': 'postValidate', 'pluginTitle': 'PythonMinimalPlugin'}").
Proof. reflexivity. Qed.

Lemma acquired_app (tr1 tr2 : trace) :
  acquired (tr1 ++ tr2) = acquired tr1 ++ acquired tr2.
Proof.
  induction tr1 as [|c tr1 IH]; [reflexivity|].
  destruct c as [| | |? ? [id|e]| | |]; cbn; rewrite IH; reflexivity.
Qed.

Lemma released_app (tr1 tr2 : trace) :
  released (tr1 ++ tr2) = released tr1 ++ released tr2.
Proof.
  induction tr1 as [|c tr1 IH]; [reflexivity|].
  destruct c; cbn; rewrite IH; try reflexivity.
  rewrite app_assoc. reflexivity.
Qed.

Lemma release_count_app (tr1 tr2 : trace) :
  release_count (tr1 ++ tr2) = release_count tr1 + release_count tr2.
Proof.
  induction tr1 as [|c tr1 IH]; [reflexivity|].
  destruct c; cbn; rewrite IH; reflexivity.
Qed.

Lemma started_app (tr1 tr2 : trace) :
  started (tr1 ++ tr2) = started tr1 ++ started tr2.
Proof.
  induction tr1 as [|c tr1 IH]; [reflexivity|].
  destruct c; cbn; rewrite IH; reflexivity.
Qed.

(** What [setUp] does: it releases nothing, and it acquires one handle,
    kept in [listener_id], exactly when it completes. *)
Lemma setUp_effect (t t' : test_case) (tr tr' : trace) (r : pyresult unit) :
  setUp cls (t, tr) = (r, (t', tr')) ->
  exists calls,
    tr' = tr ++ calls
    /\ released calls = [] /\ release_count calls = 0
    /\ Forall (clones_stack_rule cls) calls
    /\ acquired calls = match r with
                        | Return _ => [listener_id t']
                        | Raise _ => []
                        end.
Proof.
  run_method.
  destruct (get_stack_outputs _ _ _) as [outputs|e] eqn:Hout.
  2:{ intros [= <- <- <-]. eexists. split; [reflexivity|].
      repeat split. repeat constructor. }
  cbv beta iota delta [getitem].
  destruct (dict_get "PluginLifecycleWorkflow" outputs) as [arn|].
  2:{ intros [= <- <- <-]. eexists. split; [reflexivity|].
      repeat split. repeat constructor. }
  destruct (dict_get "PluginSuccessEventRuleName" outputs) as [rule|] eqn:Hrule.
  2:{ intros [= <- <- <-]. eexists. split; [reflexivity|].
      repeat split. repeat constructor. }
  assert (Hclone : forall r', clones_stack_rule cls (AddListener "default" rule r')).
  { intros r'. split; [reflexivity|]. exists outputs. split; [exact Hout|exact Hrule]. }
  destruct (add_listener _ _ _) as [id|e] eqn:Hadd; cbv beta iota;
    intros [= <- <- <-]; rewrite <- app_assoc;
    (eexists; split; [reflexivity|]);
    cbn [app acquired released release_count];
    (split; [reflexivity|split; [reflexivity|split; [|reflexivity]]]);
    (constructor; [exact I|]);
    (constructor; [apply Hclone|constructor]).
Qed.

(** What the test method does: it starts one execution, on the trigger
    record, and leaves the listener and its handle alone. *)
Lemma test_method_effect (t t' : test_case) (tr tr' : trace) (r : pyresult unit) :
  test_minimal_plugin_event_published_waiting cls float_repr (t, tr)
  = (r, (t', tr')) ->
  exists calls,
    tr' = tr ++ calls /\ t' = t
    /\ acquired calls = [] /\ released calls = [] /\ release_count calls = 0
    /\ Forall (clones_stack_rule cls) calls
    /\ started calls
       = [(plugin_tester_arn t,
           (dq "{'eventHook': 'postValidate', 'pluginTitle': 'PythonMinimalPlugin'}"))].
Proof.
  run_method. rewrite dumps_trigger_event. cbv beta iota.
  destruct (start_execution _ _ _) as [[]|e].
  2:{ intros [= <- <- <-]. eexists. split; [reflexivity|].
      repeat split. repeat constructor. }
  destruct (wait_until_event_matched _ _ _ _) as [[|]|e]; cbv beta iota;
    intros [= <- <- <-]; rewrite <- app_assoc;
    (eexists; split; [reflexivity|]); repeat split; repeat constructor.
Qed.

(** What [tearDown] does: one [remove_listeners], on the stored handle. *)
Lemma tearDown_effect (t t' : test_case) (tr tr' : trace) (r : pyresult unit) :
  tearDown cls (t, tr) = (r, (t', tr')) ->
  tr' = tr ++ [RemoveListeners [listener_id t]] /\ t' = t.
Proof. run_method. intros [= <- <- <-]. split; reflexivity. Qed.

Ltac run_runner :=
  cbv beta iota zeta delta [run run_test mbind mret py_bind py_ret] in *.

(** A part run under [testPartExecutor] leaves the state the part left;
    its exception, unless it is [KeyboardInterrupt], is recorded. *)
Lemma testPartExecutor_inv (part : method unit) (o : _Outcome)
    (st st' : test_case * trace) (r : pyresult _Outcome) :
  testPartExecutor part o st = (r, st') ->
  exists r0,
    part st = (r0, st')
    /\ r = match r0 with
           | Return _ => Return o
           | Raise e => if is_KeyboardInterrupt e then Raise e
                        else Return (record_exception e o)
           end.
Proof.
  unfold testPartExecutor. destruct (part st) as [[u|e] st0].
  - intros [= <- <-]. eexists. split; reflexivity.
  - destruct (is_KeyboardInterrupt e) eqn:Hki; intros [= <- <-];
      eexists; (split; [reflexivity|]); cbv beta iota; rewrite Hki; reflexivity.
Qed.

(** A recorded exception clears [success]. *)
Lemma record_exception_success (e : pyexn) (o : _Outcome) :
  success (record_exception e o) = false.
Proof. unfold record_exception. destruct (is_AssertionError e); reflexivity. Qed.

(** C1: in every run of the test case that ends with a success, a failure
    or an error, the handles released are the handles acquired, in number
    and in value; at most one is acquired, and it is acquired on the
    default bus as a clone of the rule the stack names. *)
Theorem listener_released_once (o : _Outcome) (tr : trace) :
  run_test cls float_repr = (Return o, tr) ->
  released tr = acquired tr
  /\ release_count tr = acquire_count tr
  /\ acquire_count tr <= 1
  /\ Forall (clones_stack_rule cls) tr.
Proof.
  run_runner. unfold acquire_count.
  destruct (testPartExecutor (setUp cls) _ _) as [ro1 [t1 tr1]] eqn:Hpart1.
  apply testPartExecutor_inv in Hpart1 as (r1 & Hset & ->).
  apply setUp_effect in Hset as (calls1 & -> & Hrel1 & Hcnt1 & Hrule1 & Hacq1).
  cbn [app] in *.
  destruct r1 as [[]|e1].
  - cbv beta iota delta [success].
    destruct (testPartExecutor (test_minimal_plugin_event_published_waiting _ _) _ _)
      as [ro2 [t2 tr2]] eqn:Hpart2.
    apply testPartExecutor_inv in Hpart2 as (r2 & Htest & ->).
    apply test_method_effect in Htest
      as (calls2 & -> & -> & Hacq2 & Hrel2 & Hcnt2 & Hrule2 & _).
    intros Hrun.
    assert (Htr : tr = (calls1 ++ calls2) ++ [RemoveListeners [listener_id t1]]).
    { destruct r2 as [[]|e2]; [|destruct (is_KeyboardInterrupt e2); [discriminate|]];
        destruct (testPartExecutor (tearDown cls) _ _) as [ro3 [t3 tr3]] eqn:Hpart3;
        apply testPartExecutor_inv in Hpart3 as (r3 & Hdown & _);
        apply tearDown_effect in Hdown as [-> ->];
        injection Hrun as _ <-; reflexivity. }
    subst tr.
    rewrite !released_app, !acquired_app, !release_count_app,
      Hrel1, Hrel2, Hacq1, Hacq2, Hcnt1, Hcnt2.
    cbn. repeat split; try lia.
    apply Forall_app; split; [apply Forall_app; split; assumption|].
    constructor; [exact I|constructor].
  - destruct (is_KeyboardInterrupt e1); [discriminate|].
    rewrite record_exception_success.
    intros [= _ <-]. rewrite Hrel1, Hacq1. cbn.
    repeat split; [lia..|assumption].
Qed.

(** C8: the trigger record is the one of lines 99 to 102; the test method
    starts exactly one execution, whose input is the text of that record;
    and the predicate accepts a payload exactly when it decodes to an
    object whose [source] is [video.plugin.] followed by the plugin title
    and whose [detail-type] is [plugin-complete]. *)
Theorem trigger_sent_once_and_matched (t : test_case) (tr : trace) :
  trigger_event = PDict [("eventHook", PStr "postValidate");
                         ("pluginTitle", PStr "PythonMinimalPlugin")]
  /\ started
       (snd (snd (test_minimal_plugin_event_published_waiting cls float_repr
                    (t, tr))))
     = started tr
       ++ [(plugin_tester_arn t,
            (dq "{'eventHook': 'postValidate', 'pluginTitle': 'PythonMinimalPlugin'}"))]
  /\ Json.loads
       (dq "{'eventHook': 'postValidate', 'pluginTitle': 'PythonMinimalPlugin'}")
     = Return trigger_event
  /\ forall received,
       _matched_event_is_correct received = Return true
       <->
       exists ev,
         Json.loads received = Return (PDict ev)
         /\ dict_get "source" ev
            = Some (PStr ("video.plugin." +:+ "PythonMinimalPlugin"))
         /\ dict_get "detail-type" ev = Some (PStr "plugin-complete").
Proof.
  split; [reflexivity|]. split; [|split; [vm_compute; reflexivity|]].
  - destruct (test_minimal_plugin_event_published_waiting cls float_repr (t, tr))
      as [r [t' tr']] eqn:Htest.
    apply test_method_effect in Htest as (calls & -> & _ & _ & _ & _ & _ & Hsent).
    cbn [snd]. rewrite started_app, Hsent. reflexivity.
  - intros received. split.
    + intros Hb. destruct (matched_returns_object _ _ Hb) as [ev Hev].
      exists ev. split; [exact Hev|].
      rewrite (matched_on_object _ _ Hev) in Hb.
      destruct (dict_get "source" ev) as [source|]; [|discriminate].
      destruct (eq_str source _) eqn:Hsrc; [|discriminate].
      apply eq_str_true in Hsrc. subst source.
      destruct (dict_get "detail-type" ev) as [dt|]; [|discriminate].
      injection Hb as Hdt. apply eq_str_true in Hdt. subst dt.
      split; reflexivity.
    + intros (ev & Hev & Hsrc & Hdt).
      rewrite (matched_on_object _ _ Hev), Hsrc, Hdt. reflexivity.
Qed.

End TestCaseProperties.

(* ===================================================================== *)
(** * The timed-out wait in the test *)
(* ===================================================================== *)

Section TimeoutProperties.

Import TestByWaiting.

Variable new_AwsIatk : string -> pyresult AwsIatk.
Variable boto3_client : string -> string -> pyresult StepFunctions.
Variable float_repr : string -> string.

(** C6: with the wait primitive of the spec and no event the predicate
    accepts before the deadline, the wait of the test method returns false
    at the deadline, and the test method, run as a part of the test, is
    recorded as a failure ([AssertionError]), with no error and nothing
    raised out of the run. *)
Theorem timeout_is_reported_failure
    (environ : gmap string string) (cls0 : class_attrs) (tr0 : trace)
    (feed : pyval -> nat -> list string)
    (t : test_case) (tr : trace) (o : _Outcome) :
  let cls := set_iatk_client (with_spec_wait feed (iatk_client cls0)) cls0 in
  let input :=
    (dq "{'eventHook': 'postValidate', 'pluginTitle': 'PythonMinimalPlugin'}") in
  load_class new_AwsIatk boto3_client environ = (Return cls0, tr0) ->
  start_execution (step_functions_client cls0) (plugin_tester_arn t) input
  = Return tt ->
  (forall u e, u < 20 -> In e (feed (listener_id t) u) ->
               _matched_event_is_correct e = Return false) ->
  wait_until_event_matched_spec (feed (listener_id t))
    _matched_event_is_correct (SLA_TIMEOUT_SECONDS cls)
  = (Return false, 20)
  /\ testPartExecutor
       (test_minimal_plugin_event_published_waiting cls float_repr) o (t, tr)
     = (Return {| success := false;
                  failures := failures o ++ [Exn AssertionError "False is not true"];
                  errors := errors o |},
        (t, tr ++ [StartExecution (plugin_tester_arn t) input;
                   WaitUntilEventMatched (listener_id t) 20 (Return false)])).
Proof.
  intros cls input Hload Hstart Hnone.
  pose proof (loaded_class_deadline _ _ _ _ _ Hload) as Hsla.
  assert (Hwait :
    wait_until_event_matched_spec (feed (listener_id t))
      _matched_event_is_correct 20 = (Return false, 20)).
  { apply (wait_no_match _ _ 20). exact Hnone. }
  split; [cbn [cls set_iatk_client SLA_TIMEOUT_SECONDS]; rewrite Hsla; exact Hwait|].
  cbv beta iota zeta delta
    [testPartExecutor test_minimal_plugin_event_published_waiting assertTrue
     perform eval getattr get_state mbind mret py_bind py_ret fst snd].
  rewrite (dumps_trigger_event float_repr).
  unfold cls.
  cbn [set_iatk_client with_spec_wait step_functions_client iatk_client
       wait_until_event_matched SLA_TIMEOUT_SECONDS].
  fold input. rewrite Hstart. cbv beta iota. rewrite Hsla, Hwait.
  cbv beta iota delta [fst]. rewrite <- app_assoc. reflexivity.
Qed.

End TimeoutProperties.

(* ===================================================================== *)
(** * The properties on the sample inputs *)
(* ===================================================================== *)

Section OnSamples.

Import HandleStockRequest TestByWaiting Samples.

(** The handler on a port that fails with a provider error. *)
Lemma getStocksRequest_retrieval_error_witness :
  stock_unreachable (PStr "AAPL")
  = Raise (Exn (ProviderError "ConnectionError") "connection refused")
  /\ getStocksRequest stock_unreachable float_repr_id (PStr "AAPL")
     = (Raise (Exn UnboundLocalError "response"),
        [[OfExn (Exn (ProviderError "ConnectionError") "connection refused")]]).
Proof.
  split; [reflexivity|].
  apply (getStocksRequest_retrieval_error stock_unreachable float_repr_id
           (PStr "AAPL")); reflexivity.
Defined.

(** The handler on a port that finds the stock. *)
Lemma getStocksRequest_success_witness :
  getStocksRequest stock_found float_repr_id (PStr "AAPL")
  = (Return (PDict [("statusCode", PInt 200);
                    ("body", PStr (dq "{'message': {'stock': 'AAPL', 'price': 187}}"))]),
     [[OfVal (PStr "Stock Data");
       OfVal (PDict [("stock", PStr "AAPL"); ("price", PInt 187)])]])
  /\ exists t,
       Json.dumps float_repr_id (PDict [("stock", PStr "AAPL"); ("price", PInt 187)])
       = Return t
       /\ (dq "{'message': {'stock': 'AAPL', 'price': 187}}")
          = (dq "{'message': ") +:+ t +:+ "}".
Proof.
  apply (getStocksRequest_success stock_found float_repr_id (PStr "AAPL")
           (PDict [("stock", PStr "AAPL"); ("price", PInt 187)])
           (dq "{'message': {'stock': 'AAPL', 'price': 187}}"));
    reflexivity.
Defined.

(** A value the encoder refuses takes the handler to the same end as a
    failed retrieval. *)
Example getStocksRequest_unserializable :
  getStocksRequest stock_as_bytes float_repr_id (PStr "AAPL")
  = (Raise (Exn UnboundLocalError "response"),
     [[OfVal (PStr "Stock Data"); OfVal (PObject "bytes")];
      [OfExn (Exn TypeError "Object of type bytes is not JSON serializable")]]).
Proof. reflexivity. Qed.

(** C3 as stated fails: the retrieval succeeds, with a [bytes] object, and
    the handler returns no envelope. *)
Lemma getStocksRequest_success_not_for_bytes :
  stock_as_bytes (PStr "AAPL") = Return (PObject "bytes")
  /\ fst (getStocksRequest stock_as_bytes float_repr_id (PStr "AAPL"))
     = Raise (Exn UnboundLocalError "response")
  /\ ~ (forall (retrieveStock : pyval -> pyresult pyval)
           (float_repr : string -> string) (stockID v : pyval),
          retrieveStock stockID = Return v ->
          exists body,
            fst (getStocksRequest retrieveStock float_repr stockID)
            = Return (PDict [("statusCode", PInt 200); ("body", PStr body)])).
Proof.
  split; [reflexivity|]. split; [reflexivity|].
  intros Hall.
  destruct (Hall stock_as_bytes float_repr_id (PStr "AAPL") (PObject "bytes")
              eq_refl) as [body Hbody].
  discriminate Hbody.
Qed.

(** An exception that is no [Exception] goes through the handler. *)
Example getStocksRequest_interrupted :
  getStocksRequest (fun _ => Raise (Exn KeyboardInterrupt "")) float_repr_id
    (PStr "AAPL")
  = (Raise (Exn KeyboardInterrupt ""), []).
Proof. reflexivity. Qed.

(** C9 as stated fails: the predicate raises on a string that is not JSON,
    on an object without [source], and on an object with the expected
    [source] and no [detail-type]. *)
Lemma matched_event_not_total :
  _matched_event_is_correct "not json"
  = Raise (Exn JSONDecodeError "Expecting value")
  /\ _matched_event_is_correct "{}" = Raise (Exn KeyError "source")
  /\ _matched_event_is_correct no_detail_type
     = Raise (Exn KeyError "detail-type")
  /\ ~ (forall received, exists b : bool,
          _matched_event_is_correct received = Return b).
Proof.
  split; [vm_compute; reflexivity|].
  split; [vm_compute; reflexivity|].
  split; [vm_compute; reflexivity|].
  intros Htotal. destruct (Htotal "{}") as [b Hb].
  vm_compute in Hb. discriminate Hb.
Qed.

(** The predicate returns on an event of another source, which needs no
    [detail-type] to be rejected. *)
Lemma matched_event_returns_iff_witness :
  exists b, _matched_event_is_correct (dq "{'source': 'video.core'}") = Return b.
Proof.
  apply (proj2 (proj1 (matched_event_returns_iff (dq "{'source': 'video.core'}")))).
  exists [("source", PStr "video.core")].
  split; [vm_compute; reflexivity|].
  split; [eexists; reflexivity|]. intros H. discriminate H.
Defined.

(** Two events that differ in everything but the two fields. *)
Lemma matched_event_depends_on_two_fields_witness :
  _matched_event_is_correct plugin_complete
  = _matched_event_is_correct plugin_complete_other_detail
  /\ exists b, _matched_event_is_correct plugin_complete = Return b.
Proof.
  destruct (matched_event_depends_on_two_fields
              plugin_complete plugin_complete_other_detail
              [("source", PStr "video.plugin.PythonMinimalPlugin");
               ("detail-type", PStr "plugin-complete");
               ("detail", PDict [("id", PInt 1)])]
              [("detail", PList [PBool true; PNone]);
               ("detail-type", PStr "plugin-complete");
               ("region", PStr "eu-west-1");
               ("source", PStr "video.plugin.PythonMinimalPlugin")])
    as [Hsame Hbool]; try (vm_compute; reflexivity).
  split; [exact Hsame|]. apply Hbool; eexists; reflexivity.
Defined.

(** The three environments: no region, no stack name, both. *)
Lemma class_body_requires_environment_witness :
  load_class (fun _ => Return (iatk (Return true))) (fun _ _ => Return sfn)
    environ_no_region
  = (Raise (Exn Exception "AWS_REGION environment variable is required"), [])
  /\ load_class (fun _ => Return (iatk (Return true))) (fun _ _ => Return sfn)
       environ_no_stack
     = (Raise (Exn Exception
                 "PLUGIN_TESTER_STACK_NAME environment variable is required"),
        [])
  /\ read_environment environ_full = Return ("eu-west-1", "plugin-tester").
Proof.
  split; [|split].
  - apply (proj1 (class_body_requires_environment _ _ environ_no_region)).
    vm_compute. reflexivity.
  - apply (proj1 (proj2 (class_body_requires_environment _ _ environ_no_stack))).
    + eexists. vm_compute. reflexivity.
    + vm_compute. reflexivity.
  - apply (proj2 (proj2 (class_body_requires_environment
                           (fun _ => Return (iatk (Return true)))
                           (fun _ _ => Return sfn) environ_full))
             "eu-west-1" "plugin-tester"); vm_compute; reflexivity.
Defined.

Lemma feed_silent_no_match (t : nat) (e : string) :
  In e (feed_silent t) -> _matched_event_is_correct e = Return false.
Proof.
  unfold feed_silent. destruct (Nat.eqb t 5); [|intros []].
  intros [<-|[]]. vm_compute. reflexivity.
Qed.

(** The awaited event arrives in unit 3 of 20, after an unrelated one. *)
Lemma wait_returns_at_first_match_witness :
  wait_until_event_matched_spec feed_match _matched_event_is_correct 20
  = (Return true, 3)
  /\ 3 < Z.to_nat 20.
Proof.
  apply (wait_returns_at_first_match feed_match _matched_event_is_correct
           20 3 [other_source] [] plugin_complete).
  - lia.
  - reflexivity.
  - vm_compute. reflexivity.
  - intros e' [<-|[]]. vm_compute. reflexivity.
  - intros [|[|[|t']]] e' Ht'; try (intros []). lia.
Defined.

(** Only unrelated events arrive: the wait ends at 20. *)
Lemma wait_times_out_at_deadline_witness :
  SLA_TIMEOUT_SECONDS (cls (iatk (Return false))) = 20%Z
  /\ wait_until_event_matched_spec feed_silent _matched_event_is_correct
       (SLA_TIMEOUT_SECONDS (cls (iatk (Return false))))
     = (Return false, 20).
Proof.
  apply (wait_times_out_at_deadline feed_silent _matched_event_is_correct
           (fun _ => Return (iatk (Return false))) (fun _ _ => Return sfn)
           environ_full (cls (iatk (Return false)))
           [NewAwsIatk "eu-west-1"; Boto3Client "stepfunctions" "eu-west-1"]).
  - vm_compute. reflexivity.
  - intros t e _. apply feed_silent_no_match.
Defined.

(** A run in which the wait gives false: one handle, released once. *)
Lemma listener_released_once_witness :
  exists o tr,
    run_test (cls (iatk (Return false))) float_repr_id = (Return o, tr)
    /\ released tr = acquired tr
    /\ release_count tr = acquire_count tr
    /\ acquire_count tr <= 1
    /\ Forall (clones_stack_rule (cls (iatk (Return false)))) tr.
Proof.
  eexists. eexists. split; [vm_compute; reflexivity|].
  eapply (listener_released_once (cls (iatk (Return false))) float_repr_id).
  vm_compute. reflexivity.
Defined.

(** The three ways the test method can end, each with its trace: the
    listener of [setUp] is removed in all of them. *)
Example run_success :
  run_test (cls (iatk (Return true))) float_repr_id
  = (Return {| success := true; failures := []; errors := [] |},
     [GetStackOutputs "plugin-tester"
        ["PluginLifecycleWorkflow"; "PluginSuccessEventRuleName"];
      AddListener "default" (PStr "plugin-success") (Return (PStr "listener-1"));
      StartExecution (PStr "arn:aws:states:workflow")
        (dq "{'eventHook': 'postValidate', 'pluginTitle': 'PythonMinimalPlugin'}");
      WaitUntilEventMatched (PStr "listener-1") 20 (Return true);
      RemoveListeners [PStr "listener-1"]]).
Proof. vm_compute. reflexivity. Qed.

Example run_failure :
  run_test (cls (iatk (Return false))) float_repr_id
  = (Return {| success := false;
               failures := [Exn AssertionError "False is not true"];
               errors := [] |},
     [GetStackOutputs "plugin-tester"
        ["PluginLifecycleWorkflow"; "PluginSuccessEventRuleName"];
      AddListener "default" (PStr "plugin-success") (Return (PStr "listener-1"));
      StartExecution (PStr "arn:aws:states:workflow")
        (dq "{'eventHook': 'postValidate', 'pluginTitle': 'PythonMinimalPlugin'}");
      WaitUntilEventMatched (PStr "listener-1") 20 (Return false);
      RemoveListeners [PStr "listener-1"]]).
Proof. vm_compute. reflexivity. Qed.

Example run_error :
  run_test (cls (iatk (Raise (Exn (ProviderError "IatkException") "poll failed"))))
    float_repr_id
  = (Return {| success := false;
               failures := [];
               errors := [Exn (ProviderError "IatkException") "poll failed"] |},
     [GetStackOutputs "plugin-tester"
        ["PluginLifecycleWorkflow"; "PluginSuccessEventRuleName"];
      AddListener "default" (PStr "plugin-success") (Return (PStr "listener-1"));
      StartExecution (PStr "arn:aws:states:workflow")
        (dq "{'eventHook': 'postValidate', 'pluginTitle': 'PythonMinimalPlugin'}");
      WaitUntilEventMatched (PStr "listener-1") 20
        (Raise (Exn (ProviderError "IatkException") "poll failed"));
      RemoveListeners [PStr "listener-1"]]).
Proof. vm_compute. reflexivity. Qed.

(** A [KeyboardInterrupt] during the wait is none of the three: it leaves
    the runner before [tearDown], and the listener stays. *)
Example run_interrupted :
  let '(r, tr) := run_test (cls (iatk (Raise (Exn KeyboardInterrupt ""))))
                    float_repr_id in
  r = Raise (Exn KeyboardInterrupt "")
  /\ acquired tr = [PStr "listener-1"] /\ released tr = [].
Proof. vm_compute. repeat split. Qed.

(** The test method on the sample clients, and the predicate on the
    awaited event. *)
Lemma trigger_sent_once_and_matched_witness :
  started
    (snd (snd (test_minimal_plugin_event_published_waiting
                 (cls (iatk (Return true))) float_repr_id
                 (set_plugin_tester_arn (PStr "arn:aws:states:workflow")
                    fresh_test_case, []))))
  = [(PStr "arn:aws:states:workflow",
      (dq "{'eventHook': 'postValidate', 'pluginTitle': 'PythonMinimalPlugin'}"))]
  /\ _matched_event_is_correct plugin_complete = Return true.
Proof.
  destruct (trigger_sent_once_and_matched (cls (iatk (Return true)))
              float_repr_id
              (set_plugin_tester_arn (PStr "arn:aws:states:workflow")
                 fresh_test_case) [])
    as (_ & Hsent & _ & Hmatch).
  split; [exact Hsent|].
  apply (proj2 (Hmatch plugin_complete)).
  eexists. split; [vm_compute; reflexivity|]. split; reflexivity.
Defined.

(** The test method against the wait primitive of the spec, on a bus where
    only unrelated events arrive. *)
Lemma timeout_is_reported_failure_witness :
  testPartExecutor
    (test_minimal_plugin_event_published_waiting
       (set_iatk_client
          (with_spec_wait (fun _ => feed_silent) (iatk (Return true)))
          (cls (iatk (Return true))))
       float_repr_id)
    {| success := true; failures := []; errors := [] |}
    (set_listener_id (PStr "listener-1") fresh_test_case, [])
  = (Return {| success := false;
               failures := [Exn AssertionError "False is not true"];
               errors := [] |},
     (set_listener_id (PStr "listener-1") fresh_test_case,
      [StartExecution PNone
         (dq "{'eventHook': 'postValidate', 'pluginTitle': 'PythonMinimalPlugin'}");
       WaitUntilEventMatched (PStr "listener-1") 20 (Return false)])).
Proof.
  apply (proj2 (timeout_is_reported_failure
                  (fun _ => Return (iatk (Return true))) (fun _ _ => Return sfn)
                  float_repr_id environ_full (cls (iatk (Return true)))
                  [NewAwsIatk "eu-west-1"; Boto3Client "stepfunctions" "eu-west-1"]
                  (fun _ => feed_silent)
                  (set_listener_id (PStr "listener-1") fresh_test_case) []
                  {| success := true; failures := []; errors := [] |}
                  ltac:(vm_compute; reflexivity) ltac:(reflexivity)
                  ltac:(intros t e _; apply feed_silent_no_match))).
Defined.

End OnSamples.

(* ===================================================================== *)
(** * More on the stock request handler *)
(* ===================================================================== *)

Section HandlerCases.

Import HandleStockRequest.

Variable retrieveStock : pyval -> pyresult pyval.
Variable float_repr : string -> string.

Ltac step_handler :=
  cbv beta iota zeta delta
    [getStocksRequest getStocksRequest_body try_except_Exception try_block
     load store print set_stockData set_response stockData response
     eval get_state modify mbind mret py_bind py_ret fst snd] in *.

(** Whatever the encoder raises is an instance of [Exception]. *)
Lemma dumps_raise_Exception : forall obj e,
  Json.dumps float_repr obj = Raise e -> is_Exception e = true.
Proof.
  fix IH 1.
  assert (Hlist : forall items e,
    (fix each (l : list pyval) : pyresult (list string) :=
       match l with
       | [] => Return []
       | v :: l' =>
           t ← Json.dumps float_repr v; ts ← each l'; Return (t :: ts)
       end) items = Raise e ->
    is_Exception e = true).
  { intros items. induction items as [|v items IHitems]; intros e;
      [discriminate|].
    destruct (Json.dumps float_repr v) as [t|e0] eqn:Hv;
      cbn [mbind pyresult_bind].
    - match goal with
      | |- context [mbind _ (?each items)] =>
          destruct (each items) as [ts|e1] eqn:Hrest
      end; cbn [mbind pyresult_bind]; [discriminate|].
      intros [= <-]. apply IHitems. reflexivity.
    - intros [= <-]. exact (IH v e0 Hv). }
  intros [| [|] | z | lit | str | items | items | pairs | ty] e;
    cbn [Json.dumps]; try discriminate.
  - destruct (Json.exceeds_int_max_str_digits z); [|discriminate].
    intros [= <-]. reflexivity.
  - match goal with
    | |- context [mbind _ (?each items)] =>
        destruct (each items) as [parts|e0] eqn:Hparts
    end; cbn [mbind pyresult_bind]; [discriminate|].
    intros [= <-]. exact (Hlist _ _ Hparts).
  - match goal with
    | |- context [mbind _ (?each items)] =>
        destruct (each items) as [parts|e0] eqn:Hparts
    end; cbn [mbind pyresult_bind]; [discriminate|].
    intros [= <-]. exact (Hlist _ _ Hparts).
  - match goal with
    | |- context [mbind _ (?each pairs)] =>
        assert (Heach : forall e', each pairs = Raise e' ->
                                   is_Exception e' = true)
    end.
    { induction pairs as [|[k v] pairs IHpairs]; intros e'; [discriminate|].
      destruct (Json.dumps float_repr v) as [t|e0] eqn:Hv;
        cbn [mbind pyresult_bind].
      - match goal with
        | |- context [mbind _ (?each pairs)] =>
            destruct (each pairs) as [ts|e1] eqn:Hrest
        end; cbn [mbind pyresult_bind]; [discriminate|].
        intros [= <-]. apply IHpairs. reflexivity.
      - intros [= <-]. exact (IH v e0 Hv). }
    match goal with
    | |- context [mbind _ (?each pairs)] =>
        destruct (each pairs) as [parts|e0] eqn:Hparts
    end; cbn [mbind pyresult_bind]; [discriminate|].
    intros [= <-]. apply Heach. reflexivity.
  - intros [= <-]. reflexivity.
Qed.


(** X2: an exception of [retrieveStock] that is no instance of [Exception]
    ([KeyboardInterrupt], [SystemExit]) leaves the handler as it came, and
    nothing is printed. *)
Theorem getStocksRequest_propagates_non_Exception (stockID : pyval) (e : pyexn) :
  retrieveStock stockID = Raise e ->
  is_Exception e = false ->
  getStocksRequest retrieveStock float_repr stockID = (Raise e, []).
Proof.
  intros Hraise Hcls. step_handler. rewrite Hraise, Hcls. reflexivity.
Qed.

(** X3: whatever the handler returns is an envelope with [statusCode] 200
    whose body is the text of the retrieved value under [message], and
    then the one line printed is the stock: no return follows an error. *)
Theorem getStocksRequest_return_inv (stockID r : pyval) (out : stdout) :
  getStocksRequest retrieveStock float_repr stockID = (Return r, out) ->
  exists v body,
    retrieveStock stockID = Return v
    /\ Json.dumps float_repr (PDict [("message", v)]) = Return body
    /\ r = PDict [("statusCode", PInt 200); ("body", PStr body)]
    /\ out = [[OfVal (PStr "Stock Data"); OfVal v]].
Proof.
  step_handler.
  destruct (retrieveStock stockID) as [v|e0].
  - step_handler.
    destruct (Json.dumps float_repr (PDict [("message", v)])) as [body|e1] eqn:Hd.
    + intros [= <- <-]. exists v, body. repeat split; try reflexivity. exact Hd.
    + destruct (is_Exception e1); discriminate.
  - destruct (is_Exception e0); discriminate.
Qed.

(** X4: what the handler raises is either [UnboundLocalError] for
    [response], after it printed an instance of [Exception] it caught, or
    an exception of [retrieveStock] that is no instance of [Exception]:
    the caller never sees the provider's error itself. *)
Theorem getStocksRequest_raise_inv (stockID : pyval) (e : pyexn) (out : stdout) :
  getStocksRequest retrieveStock float_repr stockID = (Raise e, out) ->
  (e = Exn UnboundLocalError "response"
   /\ exists caught printed_before,
        is_Exception caught = true
        /\ out = printed_before ++ [[OfExn caught]])
  \/ (is_Exception e = false
      /\ retrieveStock stockID = Raise e /\ out = []).
Proof.
  step_handler.
  destruct (retrieveStock stockID) as [v|e0].
  - step_handler.
    destruct (Json.dumps float_repr (PDict [("message", v)])) as [body|e1] eqn:Hd.
    + discriminate.
    + pose proof (dumps_raise_Exception _ _ Hd) as Hcls.
      rewrite Hcls. intros [= <- <-]. left. split; [reflexivity|].
      exists e1, [[OfVal (PStr "Stock Data"); OfVal v]]. split; [exact Hcls|reflexivity].
  - destruct (is_Exception e0) eqn:Hcls; intros [= <- <-].
    + left. split; [reflexivity|]. exists e0, []. split; [exact Hcls|reflexivity].
    + right. repeat split; try reflexivity. exact Hcls.
Qed.

End HandlerCases.

(* ===================================================================== *)
(** * How the match predicate fails and rejects *)
(* ===================================================================== *)

Section PredicateCases.

Import Json TestByWaiting.

Lemma eq_str_false (v : pyval) (s : string) : eq_str v s = false <-> v <> PStr s.
Proof.
  rewrite <- (eq_str_true v s). destruct (eq_str v s); split;
    congruence.
Qed.

(** X5: the four ways the predicate raises.  [json.loads] raised, and
    the predicate raises that same exception; the payload decodes to
    something that is no object ([TypeError]); the object has no [source]
    ([KeyError] on [source]); or it has the expected source and no
    [detail-type] ([KeyError] on [detail-type]). *)
Theorem matched_event_raise_inv (received : string) (e : pyexn) :
  _matched_event_is_correct received = Raise e ->
  loads received = Raise e
  \/ (exists v, loads received = Return v
        /\ (forall ev, v <> PDict ev) /\ exn_class e = TypeError)
  \/ (exists ev, loads received = Return (PDict ev)
        /\ dict_get "source" ev = None /\ e = Exn KeyError "source")
  \/ (exists ev, loads received = Return (PDict ev)
        /\ dict_get "source" ev = Some (PStr "video.plugin.PythonMinimalPlugin")
        /\ dict_get "detail-type" ev = None
        /\ e = Exn KeyError "detail-type").
Proof.
  destruct (loads received) as [v|e0] eqn:Hloads.
  - destruct v as [| b | z | lit | str | items | items | ev | ty];
      try (unfold _matched_event_is_correct; rewrite Hloads;
           cbv beta iota delta [mbind pyresult_bind getitem];
           intros [= <-]; right; left; eexists;
           split; [reflexivity|split; [intros ev; discriminate|reflexivity]]).
    rewrite (matched_on_object _ _ Hloads).
    destruct (dict_get "source" ev) as [source|] eqn:Hsrc.
    + destruct (eq_str source _) eqn:Heq; [|discriminate].
      apply eq_str_true in Heq. subst source.
      destruct (dict_get "detail-type" ev) as [dt|] eqn:Hdt; [discriminate|].
      intros [= <-]. right. right. right. exists ev. repeat split; assumption.
    + intros [= <-]. right. right. left. exists ev. repeat split; assumption.
  - unfold _matched_event_is_correct. rewrite Hloads.
    cbv beta iota delta [mbind pyresult_bind]. intros [= <-]. left.
    reflexivity.
Qed.

(** X6: the predicate answers false exactly on an object that has a
    [source] and either that source is not the expected string, or the
    [detail-type] is there and is not [plugin-complete].  A source or a
    detail-type that is no string at all is turned down, not an error. *)
Theorem matched_event_rejects_iff (received : string) :
  _matched_event_is_correct received = Return false
  <->
  exists ev source,
    loads received = Return (PDict ev)
    /\ dict_get "source" ev = Some source
    /\ (source <> PStr "video.plugin.PythonMinimalPlugin"
        \/ exists detail_type,
             dict_get "detail-type" ev = Some detail_type
             /\ detail_type <> PStr "plugin-complete").
Proof.
  split.
  - intros Hb. destruct (matched_returns_object _ _ Hb) as [ev Hev].
    rewrite (matched_on_object _ _ Hev) in Hb.
    destruct (dict_get "source" ev) as [source|] eqn:Hsrc; [|discriminate].
    exists ev, source. split; [exact Hev|]. split; [exact Hsrc|].
    destruct (eq_str source _) eqn:Heq.
    + right. destruct (dict_get "detail-type" ev) as [dt|] eqn:Hdt0; [|discriminate].
      exists dt. split; [reflexivity|].
      injection Hb as Hdt. apply eq_str_false. exact Hdt.
    + left. apply eq_str_false. exact Heq.
  - intros (ev & source & Hev & Hsrc & Hcase).
    rewrite (matched_on_object _ _ Hev), Hsrc.
    destruct (eq_str source _) eqn:Heq; [|reflexivity].
    destruct Hcase as [Hne|(dt & Hdt & Hne)].
    + apply eq_str_false in Hne. congruence.
    + rewrite Hdt. apply eq_str_false in Hne. rewrite Hne. reflexivity.
Qed.

End PredicateCases.

(* ===================================================================== *)
(** * More on the class body *)
(* ===================================================================== *)

Section ClassBodyCases.

Import TestByWaiting.

Variable new_AwsIatk : string -> pyresult AwsIatk.
Variable boto3_client : string -> string -> pyresult StepFunctions.

Ltac step_class_body :=
  cbv beta iota zeta delta
    [load_class class_body read_environment perform eval
     mbind mret py_bind py_ret fst snd].

(** X7: a class that was loaded took its region and its stack name from
    the two environment variables, and both of its clients were
    constructed for that region, the IATK client first and the Step
    Functions client second, with nothing else constructed. *)
Theorem load_class_inv (environ : gmap string string)
    (cls : class_attrs) (tr : trace) :
  load_class new_AwsIatk boto3_client environ = (Return cls, tr) ->
  environ !! "AWS_REGION" = Some (aws_region cls)
  /\ environ !! "PLUGIN_TESTER_STACK_NAME" = Some (plugin_tester_stack_name cls)
  /\ new_AwsIatk (aws_region cls) = Return (iatk_client cls)
  /\ boto3_client "stepfunctions" (aws_region cls)
     = Return (step_functions_client cls)
  /\ tr = [NewAwsIatk (aws_region cls);
           Boto3Client "stepfunctions" (aws_region cls)].
Proof.
  step_class_body.
  destruct (environ !! "AWS_REGION") as [region|]; [|discriminate].
  destruct (environ !! "PLUGIN_TESTER_STACK_NAME") as [stack|]; [|discriminate].
  destruct (new_AwsIatk region) as [c|e] eqn:Hiatk; [|discriminate].
  destruct (boto3_client "stepfunctions" region) as [w|e] eqn:Hsfn;
    [|discriminate].
  intros [= <- <-]. cbn [aws_region plugin_tester_stack_name iatk_client
                         step_functions_client].
  repeat split; assumption.
Qed.

(** X8: with the environment in place, an exception of a client
    constructor is the exception of loading the class; when the IATK
    constructor fails, the Step Functions client is never asked for. *)
Theorem load_class_client_error (environ : gmap string string)
    (region stack : string) :
  environ !! "AWS_REGION" = Some region ->
  environ !! "PLUGIN_TESTER_STACK_NAME" = Some stack ->
  (forall e, new_AwsIatk region = Raise e ->
     load_class new_AwsIatk boto3_client environ
     = (Raise e, [NewAwsIatk region]))
  /\ (forall c e,
        new_AwsIatk region = Return c ->
        boto3_client "stepfunctions" region = Raise e ->
        load_class new_AwsIatk boto3_client environ
        = (Raise e, [NewAwsIatk region; Boto3Client "stepfunctions" region])).
Proof.
  intros Hregion Hstack. split.
  - intros e Hiatk. step_class_body. rewrite Hregion, Hstack, Hiatk. reflexivity.
  - intros c e Hiatk Hsfn. step_class_body.
    rewrite Hregion, Hstack, Hiatk, Hsfn. reflexivity.
Qed.

End ClassBodyCases.

(* ===================================================================== *)
(** * More on the test case *)
(* ===================================================================== *)

Section TestCaseCases.

Import TestByWaiting.

Variable cls : class_attrs.
Variable float_repr : string -> string.

Ltac step_method :=
  cbv beta iota zeta delta
    [setUp tearDown test_minimal_plugin_event_published_waiting assertTrue
     perform eval getattr setattr get_state modify
     mbind mret py_bind py_ret fst snd
     set_listener_id set_plugin_tester_arn set_existing_rule_name
     listener_id plugin_tester_arn existing_rule_name] in *.

Local Abbreviation output_names :=
  ["PluginLifecycleWorkflow"; "PluginSuccessEventRuleName"].

Local Abbreviation stack_query :=
  (GetStackOutputs (plugin_tester_stack_name cls) output_names).

Local Abbreviation trigger_text :=
  (dq "{'eventHook': 'postValidate', 'pluginTitle': 'PythonMinimalPlugin'}").

(** [setUp], case by case on what the client gives back. *)
Lemma setUp_cases (t : test_case) (tr : trace) :
  setUp cls (t, tr) =
  match get_stack_outputs (iatk_client cls) (plugin_tester_stack_name cls)
          output_names with
  | Raise e => (Raise e, (t, tr ++ [stack_query]))
  | Return outputs =>
      match dict_get "PluginLifecycleWorkflow" outputs with
      | None => (Raise (Exn KeyError "PluginLifecycleWorkflow"),
                 (t, tr ++ [stack_query]))
      | Some arn =>
          match dict_get "PluginSuccessEventRuleName" outputs with
          | None => (Raise (Exn KeyError "PluginSuccessEventRuleName"),
                     (set_plugin_tester_arn arn t, tr ++ [stack_query]))
          | Some rule =>
              match add_listener (iatk_client cls) "default" rule with
              | Raise e =>
                  (Raise e,
                   (set_existing_rule_name rule (set_plugin_tester_arn arn t),
                    tr ++ [stack_query; AddListener "default" rule (Raise e)]))
              | Return id =>
                  (Return tt,
                   ({| listener_id := id; plugin_tester_arn := arn;
                       existing_rule_name := rule |},
                    tr ++ [stack_query; AddListener "default" rule (Return id)]))
              end
          end
      end
  end.
Proof.
  step_method.
  destruct (get_stack_outputs _ _ _) as [outputs|e]; [|reflexivity].
  cbv beta iota delta [getitem].
  destruct (dict_get "PluginLifecycleWorkflow" outputs) as [arn|]; [|reflexivity].
  destruct (dict_get "PluginSuccessEventRuleName" outputs) as [rule|];
    [|reflexivity].
  destruct (add_listener _ _ _) as [id|e]; cbv beta iota;
    rewrite <- app_assoc; reflexivity.
Qed.

(** The test method, case by case on what the clients give back. *)
Lemma test_method_cases (t : test_case) (tr : trace) :
  test_minimal_plugin_event_published_waiting cls float_repr (t, tr) =
  let sent := StartExecution (plugin_tester_arn t) trigger_text in
  match start_execution (step_functions_client cls) (plugin_tester_arn t)
          trigger_text with
  | Raise e => (Raise e, (t, tr ++ [sent]))
  | Return _ =>
      let waited :=
        wait_until_event_matched (iatk_client cls) (listener_id t)
          _matched_event_is_correct (SLA_TIMEOUT_SECONDS cls) in
      (match waited with
       | Return true => Return tt
       | Return false => Raise (Exn AssertionError "False is not true")
       | Raise e => Raise e
       end,
       (t, tr ++ [sent;
                  WaitUntilEventMatched (listener_id t)
                    (SLA_TIMEOUT_SECONDS cls) waited]))
  end.
Proof.
  step_method. rewrite (dumps_trigger_event float_repr). cbv beta iota.
  destruct (start_execution _ _ _) as [[]|e]; [|reflexivity].
  destruct (wait_until_event_matched _ _ _ _) as [[|]|e]; cbv beta iota;
    rewrite <- app_assoc; reflexivity.
Qed.

(** X9: [setUp] completes exactly when the stack has both outputs and the
    listener is added; it then holds the workflow, the rule and the id of
    the new listener, and has made these two calls and no other. *)
Theorem setUp_returns_iff (t t' : test_case) (tr tr' : trace) :
  setUp cls (t, tr) = (Return tt, (t', tr'))
  <->
  exists outputs arn rule id,
    get_stack_outputs (iatk_client cls) (plugin_tester_stack_name cls)
      output_names = Return outputs
    /\ dict_get "PluginLifecycleWorkflow" outputs = Some arn
    /\ dict_get "PluginSuccessEventRuleName" outputs = Some rule
    /\ add_listener (iatk_client cls) "default" rule = Return id
    /\ t' = {| listener_id := id; plugin_tester_arn := arn;
               existing_rule_name := rule |}
    /\ tr' = tr ++ [stack_query; AddListener "default" rule (Return id)].
Proof.
  rewrite setUp_cases. split.
  - destruct (get_stack_outputs _ _ _) as [outputs|e]; [|discriminate].
    destruct (dict_get "PluginLifecycleWorkflow" outputs) as [arn|] eqn:Harn;
      [|discriminate].
    destruct (dict_get "PluginSuccessEventRuleName" outputs) as [rule|] eqn:Hrule;
      [|discriminate].
    destruct (add_listener _ _ _) as [id|e] eqn:Hadd; [|discriminate].
    intros [= <- <-]. exists outputs, arn, rule, id.
    repeat split; assumption.
  - intros (outputs & arn & rule & id & -> & -> & -> & -> & -> & ->).
    reflexivity.
Qed.

(** X10: when the stack lacks an output, [setUp] raises [KeyError] for the
    first one missing, the workflow before the rule, and no listener is
    added: the only call made is the query of the stack. *)
Theorem setUp_missing_output (t : test_case) (tr : trace)
    (outputs : list (string * pyval)) :
  get_stack_outputs (iatk_client cls) (plugin_tester_stack_name cls)
    output_names = Return outputs ->
  (dict_get "PluginLifecycleWorkflow" outputs = None ->
   setUp cls (t, tr)
   = (Raise (Exn KeyError "PluginLifecycleWorkflow"), (t, tr ++ [stack_query])))
  /\ (forall arn,
        dict_get "PluginLifecycleWorkflow" outputs = Some arn ->
        dict_get "PluginSuccessEventRuleName" outputs = None ->
        setUp cls (t, tr)
        = (Raise (Exn KeyError "PluginSuccessEventRuleName"),
           (set_plugin_tester_arn arn t, tr ++ [stack_query]))).
Proof.
  intros Hout. split.
  - intros Harn. rewrite setUp_cases, Hout, Harn. reflexivity.
  - intros arn Harn Hrule. rewrite setUp_cases, Hout, Harn, Hrule. reflexivity.
Qed.

(** X11: a [setUp] that raises has stored no listener id and acquired no
    handle, and its exception is that of the stack query, the [KeyError]
    of a missing output, or that of [add_listener]. *)
Theorem setUp_failure_frame (t t' : test_case) (tr tr' : trace) (e : pyexn) :
  setUp cls (t, tr) = (Raise e, (t', tr')) ->
  listener_id t' = listener_id t
  /\ acquired tr' = acquired tr
  /\ (get_stack_outputs (iatk_client cls) (plugin_tester_stack_name cls)
        output_names = Raise e
      \/ (exn_class e = KeyError /\ In (exn_arg e) output_names)
      \/ exists rule, add_listener (iatk_client cls) "default" rule = Raise e).
Proof.
  rewrite setUp_cases.
  destruct (get_stack_outputs _ _ _) as [outputs|e0].
  2:{ intros [= <- <- <-]. rewrite acquired_app, app_nil_r.
      repeat split. left. reflexivity. }
  destruct (dict_get "PluginLifecycleWorkflow" outputs) as [arn|].
  2:{ intros [= <- <- <-]. rewrite acquired_app, app_nil_r.
      repeat split. right. left. split; [reflexivity|left; reflexivity]. }
  destruct (dict_get "PluginSuccessEventRuleName" outputs) as [rule|].
  2:{ intros [= <- <- <-]. rewrite acquired_app, app_nil_r.
      repeat split. right. left. split; [reflexivity|right; left; reflexivity]. }
  destruct (add_listener _ _ _) as [id|e0] eqn:Hadd; [discriminate|].
  intros [= <- <- <-]. rewrite acquired_app, app_nil_r.
  repeat split. right. right. exists rule. exact Hadd.
Qed.

(** X12: the test method completes exactly when the execution is started
    and the wait on the stored listener, with the predicate and the
    deadline of the class, gives true. *)
Theorem test_passes_iff (t : test_case) (tr : trace) :
  (exists st',
     test_minimal_plugin_event_published_waiting cls float_repr (t, tr)
     = (Return tt, st'))
  <->
  start_execution (step_functions_client cls) (plugin_tester_arn t) trigger_text
  = Return tt
  /\ wait_until_event_matched (iatk_client cls) (listener_id t)
       _matched_event_is_correct (SLA_TIMEOUT_SECONDS cls)
     = Return true.
Proof.
  rewrite test_method_cases. cbv zeta. split.
  - intros [st' Hrun].
    destruct (start_execution _ _ _) as [[]|e]; [|discriminate].
    destruct (wait_until_event_matched _ _ _ _) as [[|]|e]; try discriminate.
    split; reflexivity.
  - intros [-> ->]. eexists. reflexivity.
Qed.

(** X13: the test method raises the exception of [start_execution], or
    that of the wait, or [AssertionError] when the wait gave false. *)
Theorem test_raise_inv (t : test_case) (tr : trace) (e : pyexn)
    (st' : test_case * trace) :
  test_minimal_plugin_event_published_waiting cls float_repr (t, tr)
  = (Raise e, st') ->
  start_execution (step_functions_client cls) (plugin_tester_arn t) trigger_text
  = Raise e
  \/ (start_execution (step_functions_client cls) (plugin_tester_arn t)
        trigger_text = Return tt
      /\ (wait_until_event_matched (iatk_client cls) (listener_id t)
            _matched_event_is_correct (SLA_TIMEOUT_SECONDS cls) = Raise e
          \/ (wait_until_event_matched (iatk_client cls) (listener_id t)
                _matched_event_is_correct (SLA_TIMEOUT_SECONDS cls)
              = Return false
              /\ e = Exn AssertionError "False is not true"))).
Proof.
  rewrite test_method_cases. cbv zeta.
  destruct (start_execution _ _ _) as [[]|e0].
  - destruct (wait_until_event_matched _ _ _ _) as [[|]|e1]; [discriminate| |].
    + intros [= <- _]. right. split; [reflexivity|]. right. split; reflexivity.
    + intros [= <- _]. right. split; [reflexivity|]. left. reflexivity.
  - intros [= <- _]. left. reflexivity.
Qed.

(** X14: the test method changes no attribute of the test case, and the
    calls it makes are the start of the execution and, only when that
    returned, one wait on the stored listener with the deadline of the
    class. *)
Theorem test_method_calls (t : test_case) (tr : trace) :
  snd (test_minimal_plugin_event_published_waiting cls float_repr (t, tr))
  = (t,
     tr ++ StartExecution (plugin_tester_arn t) trigger_text
        :: match start_execution (step_functions_client cls)
                   (plugin_tester_arn t) trigger_text with
           | Return _ =>
               [WaitUntilEventMatched (listener_id t) (SLA_TIMEOUT_SECONDS cls)
                  (wait_until_event_matched (iatk_client cls) (listener_id t)
                     _matched_event_is_correct (SLA_TIMEOUT_SECONDS cls))]
           | Raise _ => []
           end).
Proof.
  rewrite test_method_cases. cbv zeta.
  destruct (start_execution _ _ _) as [[]|e]; reflexivity.
Qed.

Lemma tearDown_cases (t : test_case) (tr : trace) :
  tearDown cls (t, tr)
  = (remove_listeners (iatk_client cls) [listener_id t],
     (t, tr ++ [RemoveListeners [listener_id t]])).
Proof. reflexivity. Qed.

Ltac step_run :=
  repeat first
    [ rewrite setUp_cases
    | rewrite test_method_cases
    | rewrite tearDown_cases
    | rewrite record_exception_success
    | progress cbv beta iota zeta
    | progress cbn [success app listener_id plugin_tester_arn] ].

Ltac open_run :=
  unfold run_test, run;
  cbv beta iota zeta delta [mbind py_bind mret py_ret testPartExecutor].

(** Close a goal made of [exists], [/\], [\/] and equations that hold by
    computation. *)
Ltac pick :=
  first [ reflexivity | assumption
        | eexists; pick | split; pick | left; pick | right; pick ].

(** X15: every run that reaches a verdict made its calls in one of four
    sequences: the stack query alone; then a failed [add_listener]; or,
    with a listener added, the start of the execution, the wait when that
    start returned, and last the removal.  The wait and the removal are on
    the id that [add_listener] gave, and the wait has the deadline of the
    class. *)
Theorem run_trace_shapes (o : _Outcome) (tr : trace) :
  run_test cls float_repr = (Return o, tr) ->
  tr = [stack_query]
  \/ (exists rule e,
        tr = [stack_query; AddListener "default" rule (Raise e)])
  \/ (exists arn rule id,
        tr = [stack_query; AddListener "default" rule (Return id);
              StartExecution arn trigger_text; RemoveListeners [id]])
  \/ (exists arn rule id waited,
        tr = [stack_query; AddListener "default" rule (Return id);
              StartExecution arn trigger_text;
              WaitUntilEventMatched id (SLA_TIMEOUT_SECONDS cls) waited;
              RemoveListeners [id]]).
Proof.
  open_run. step_run.
  destruct (get_stack_outputs _ _ _) as [outputs|e0].
  2:{ step_run. destruct (is_KeyboardInterrupt e0); step_run;
        [discriminate|]. intros [= _ <-]. left. reflexivity. }
  destruct (dict_get "PluginLifecycleWorkflow" outputs) as [arn|].
  2:{ step_run. intros [= _ <-]. left. reflexivity. }
  destruct (dict_get "PluginSuccessEventRuleName" outputs) as [rule|].
  2:{ step_run. intros [= _ <-]. left. reflexivity. }
  destruct (add_listener _ _ _) as [id|e0].
  2:{ step_run. destruct (is_KeyboardInterrupt e0); step_run;
        [discriminate|]. intros [= _ <-]. right. left. pick. }
  step_run.
  destruct (start_execution _ _ _) as [[]|e1].
  - step_run.
    destruct (wait_until_event_matched _ _ _ _) as [[|]|e2]; step_run;
      try (destruct (is_KeyboardInterrupt _); step_run; [discriminate|]);
      (destruct (remove_listeners _ _) as [[]|e3]; step_run;
       try (destruct (is_KeyboardInterrupt e3); step_run; [discriminate|]);
       intros [= _ <-]; right; right; right; pick).
  - step_run. destruct (is_KeyboardInterrupt e1); step_run; [discriminate|].
    destruct (remove_listeners _ _) as [[]|e3]; step_run;
      try (destruct (is_KeyboardInterrupt e3); step_run; [discriminate|]);
      intros [= _ <-]; right; right; left; pick.
Qed.

(** X16: the run ends with no failure and no error exactly when every
    call returns and the wait gives true: both outputs are found, the
    listener is added, the execution is started, the wait on the new
    listener succeeds and the listener is removed; these five calls are
    then the whole run. *)
Theorem run_passes_iff (tr : trace) :
  run_test cls float_repr
  = (Return {| success := true; failures := []; errors := [] |}, tr)
  <->
  exists outputs arn rule id,
    get_stack_outputs (iatk_client cls) (plugin_tester_stack_name cls)
      output_names = Return outputs
    /\ dict_get "PluginLifecycleWorkflow" outputs = Some arn
    /\ dict_get "PluginSuccessEventRuleName" outputs = Some rule
    /\ add_listener (iatk_client cls) "default" rule = Return id
    /\ start_execution (step_functions_client cls) arn trigger_text = Return tt
    /\ wait_until_event_matched (iatk_client cls) id
         _matched_event_is_correct (SLA_TIMEOUT_SECONDS cls) = Return true
    /\ remove_listeners (iatk_client cls) [id] = Return tt
    /\ tr = [stack_query; AddListener "default" rule (Return id);
             StartExecution arn trigger_text;
             WaitUntilEventMatched id (SLA_TIMEOUT_SECONDS cls) (Return true);
             RemoveListeners [id]].
Proof.
  assert (Hspoiled : forall e o (tr0 : trace),
    (Return (record_exception e o), tr0)
    = (Return {| success := true; failures := []; errors := [] |}, tr) -> False).
  { intros e o tr0 [= Ho _]. apply (f_equal success) in Ho.
    rewrite record_exception_success in Ho. discriminate Ho. }
  split.
  - open_run. step_run.
    destruct (get_stack_outputs _ _ _) as [outputs|e0] eqn:Hout.
    2:{ step_run. destruct (is_KeyboardInterrupt e0); step_run;
          [discriminate|]. intros H. destruct (Hspoiled _ _ _ H). }
    destruct (dict_get "PluginLifecycleWorkflow" outputs) as [arn|] eqn:Harn.
    2:{ step_run. intros H. destruct (Hspoiled _ _ _ H). }
    destruct (dict_get "PluginSuccessEventRuleName" outputs) as [rule|] eqn:Hrule.
    2:{ step_run. intros H. destruct (Hspoiled _ _ _ H). }
    destruct (add_listener _ _ _) as [id|e0] eqn:Hadd.
    2:{ step_run. destruct (is_KeyboardInterrupt e0); step_run;
          [discriminate|]. intros H. destruct (Hspoiled _ _ _ H). }
    step_run.
    destruct (start_execution _ _ _) as [[]|e1] eqn:Hstart.
    + step_run.
      destruct (wait_until_event_matched _ _ _ _) as [[|]|e2] eqn:Hwait; step_run;
        try (destruct (is_KeyboardInterrupt _); step_run; [discriminate|]);
        (destruct (remove_listeners _ _) as [[]|e3] eqn:Hrm; step_run;
         try (destruct (is_KeyboardInterrupt e3); step_run; [discriminate|]);
         try (intros H; destruct (Hspoiled _ _ _ H))).
      intros [= <-]. exists outputs, arn, rule, id. repeat split; assumption.
    + step_run. destruct (is_KeyboardInterrupt e1); step_run; [discriminate|].
      destruct (remove_listeners _ _) as [[]|e3]; step_run;
        try (destruct (is_KeyboardInterrupt e3); step_run; [discriminate|]);
        intros H; destruct (Hspoiled _ _ _ H).
  - intros (outputs & arn & rule & id & Hout & Harn & Hrule & Hadd & Hstart
            & Hwait & Hrm & ->).
    open_run. step_run. rewrite Hout, Harn, Hrule, Hadd. step_run.
    rewrite Hstart. step_run. rewrite Hwait. step_run. rewrite Hrm. reflexivity.
Qed.

End TestCaseCases.

(* ===================================================================== *)
(** * The further properties on the sample inputs *)
(* ===================================================================== *)

Section OnMoreSamples.

Import HandleStockRequest TestByWaiting Samples MoreSamples.

Local Abbreviation stack_query_sample :=
  (GetStackOutputs "plugin-tester"
     ["PluginLifecycleWorkflow"; "PluginSuccessEventRuleName"]).

Local Abbreviation trigger_text :=
  (dq "{'eventHook': 'postValidate', 'pluginTitle': 'PythonMinimalPlugin'}").

Local Abbreviation ok_outcome :=
  {| success := true; failures := []; errors := [] |}.


(** A port interrupted from the keyboard. *)
Lemma getStocksRequest_propagates_non_Exception_witness :
  getStocksRequest stock_interrupted float_repr_id (PStr "AAPL")
  = (Raise (Exn KeyboardInterrupt "interrupted"), []).
Proof.
  apply (getStocksRequest_propagates_non_Exception stock_interrupted
           float_repr_id (PStr "AAPL")); reflexivity.
Defined.

(** What the handler returned for a stock that was found. *)
Lemma getStocksRequest_return_inv_witness :
  exists v body,
    stock_found (PStr "AAPL") = Return v
    /\ Json.dumps float_repr_id (PDict [("message", v)]) = Return body
    /\ PDict [("statusCode", PInt 200);
              ("body", PStr (dq "{'message': {'stock': 'AAPL', 'price': 187}}"))]
       = PDict [("statusCode", PInt 200); ("body", PStr body)]
    /\ [[OfVal (PStr "Stock Data");
         OfVal (PDict [("stock", PStr "AAPL"); ("price", PInt 187)])]]
       = [[OfVal (PStr "Stock Data"); OfVal v]].
Proof.
  apply (getStocksRequest_return_inv stock_found float_repr_id (PStr "AAPL")).
  reflexivity.
Defined.

(** What the handler raised for a stock that could not be reached. *)
Lemma getStocksRequest_raise_inv_witness :
  (Exn UnboundLocalError "response" = Exn UnboundLocalError "response"
   /\ exists caught printed_before,
        is_Exception caught = true
        /\ [[OfExn (Exn (ProviderError "ConnectionError") "connection refused")]]
           = printed_before ++ [[OfExn caught]])
  \/ (is_Exception (Exn UnboundLocalError "response") = false
      /\ stock_unreachable (PStr "AAPL") = Raise (Exn UnboundLocalError "response")
      /\ [[OfExn (Exn (ProviderError "ConnectionError") "connection refused")]]
         = []).
Proof.
  apply (getStocksRequest_raise_inv stock_unreachable float_repr_id (PStr "AAPL")).
  reflexivity.
Defined.

(** A payload that is a JSON list. *)
Lemma matched_event_raise_inv_witness :
  let e := Exn TypeError "list indices must be integers or slices, not str" in
  Json.loads json_list = Raise e
  \/ (exists v, Json.loads json_list = Return v
        /\ (forall ev, v <> PDict ev) /\ exn_class e = TypeError)
  \/ (exists ev, Json.loads json_list = Return (PDict ev)
        /\ dict_get "source" ev = None /\ e = Exn KeyError "source")
  \/ (exists ev, Json.loads json_list = Return (PDict ev)
        /\ dict_get "source" ev = Some (PStr "video.plugin.PythonMinimalPlugin")
        /\ dict_get "detail-type" ev = None
        /\ e = Exn KeyError "detail-type").
Proof.
  apply (matched_event_raise_inv json_list). vm_compute. reflexivity.
Defined.

(** A source that is a number, and a detail-type that is null. *)
Lemma matched_event_rejects_iff_witness :
  _matched_event_is_correct numeric_source = Return false
  /\ _matched_event_is_correct null_detail_type = Return false.
Proof.
  split.
  - apply (proj2 (matched_event_rejects_iff numeric_source)).
    exists [("source", PInt 5)], (PInt 5).
    split; [vm_compute; reflexivity|]. split; [reflexivity|].
    left. discriminate.
  - apply (proj2 (matched_event_rejects_iff null_detail_type)).
    exists [("source", PStr "video.plugin.PythonMinimalPlugin");
            ("detail-type", PNone)],
           (PStr "video.plugin.PythonMinimalPlugin").
    split; [vm_compute; reflexivity|]. split; [reflexivity|].
    right. exists PNone. split; [reflexivity|discriminate].
Defined.

(** The class loaded from the full environment. *)
Lemma load_class_inv_witness :
  environ_full !! "AWS_REGION" = Some "eu-west-1"
  /\ environ_full !! "PLUGIN_TESTER_STACK_NAME" = Some "plugin-tester"
  /\ Return (iatk (Return true)) = Return (iatk (Return true))
  /\ Return sfn = Return sfn
  /\ [NewAwsIatk "eu-west-1"; Boto3Client "stepfunctions" "eu-west-1"]
     = [NewAwsIatk "eu-west-1"; Boto3Client "stepfunctions" "eu-west-1"].
Proof.
  apply (load_class_inv (fun _ => Return (iatk (Return true)))
           (fun _ _ => Return sfn) environ_full (cls (iatk (Return true)))).
  vm_compute. reflexivity.
Defined.

(** A class whose clients cannot be constructed. *)
Lemma load_class_client_error_witness :
  load_class no_iatk (fun _ _ => Return sfn) environ_full
  = (Raise (Exn (ProviderError "IatkException") "binary not found"),
     [NewAwsIatk "eu-west-1"])
  /\ load_class (fun _ => Return (iatk (Return true))) no_boto3 environ_full
     = (Raise (Exn (ProviderError "UnknownServiceError") "unknown service"),
        [NewAwsIatk "eu-west-1"; Boto3Client "stepfunctions" "eu-west-1"]).
Proof.
  split.
  - apply (proj1 (load_class_client_error no_iatk (fun _ _ => Return sfn)
                    environ_full "eu-west-1" "plugin-tester"
                    ltac:(vm_compute; reflexivity)
                    ltac:(vm_compute; reflexivity))).
    reflexivity.
  - apply (proj2 (load_class_client_error
                    (fun _ => Return (iatk (Return true))) no_boto3
                    environ_full "eu-west-1" "plugin-tester"
                    ltac:(vm_compute; reflexivity)
                    ltac:(vm_compute; reflexivity))
             (iatk (Return true))); reflexivity.
Defined.

(** [setUp] against a stack with both outputs. *)
Lemma setUp_returns_iff_witness :
  setUp (cls (iatk (Return true))) (fresh_test_case, [])
  = (Return tt,
     ({| listener_id := PStr "listener-1";
         plugin_tester_arn := PStr "arn:aws:states:workflow";
         existing_rule_name := PStr "plugin-success" |},
      [stack_query_sample;
       AddListener "default" (PStr "plugin-success")
         (Return (PStr "listener-1"))])).
Proof.
  apply (proj2 (setUp_returns_iff (cls (iatk (Return true))) fresh_test_case _
                  [] _)).
  exists both_outputs, (PStr "arn:aws:states:workflow"),
    (PStr "plugin-success"), (PStr "listener-1").
  repeat split.
Defined.

(** [setUp] against a stack with no output, and with the workflow only. *)
Lemma setUp_missing_output_witness :
  setUp (cls_with (iatk_with (Return []) (Return (PStr "listener-1"))
                     (Return true) (Return tt)) sfn)
    (fresh_test_case, [])
  = (Raise (Exn KeyError "PluginLifecycleWorkflow"),
     (fresh_test_case, [stack_query_sample]))
  /\ setUp (cls_with (iatk_with (Return workflow_only)
                        (Return (PStr "listener-1")) (Return true) (Return tt))
              sfn)
       (fresh_test_case, [])
     = (Raise (Exn KeyError "PluginSuccessEventRuleName"),
        (set_plugin_tester_arn (PStr "arn:aws:states:workflow") fresh_test_case,
         [stack_query_sample])).
Proof.
  split.
  - apply (proj1 (setUp_missing_output
                    (cls_with (iatk_with (Return []) (Return (PStr "listener-1"))
                                 (Return true) (Return tt)) sfn)
                    fresh_test_case [] [] eq_refl)).
    reflexivity.
  - apply (proj2 (setUp_missing_output
                    (cls_with (iatk_with (Return workflow_only)
                                 (Return (PStr "listener-1")) (Return true)
                                 (Return tt)) sfn)
                    fresh_test_case [] workflow_only eq_refl)
             (PStr "arn:aws:states:workflow")); reflexivity.
Defined.

(** [setUp] against a bus that refuses the listener. *)
Lemma setUp_failure_frame_witness :
  let e := Exn (ProviderError "IatkException") "rule not found" in
  let client := iatk_with (Return both_outputs) (Raise e) (Return true)
                  (Return tt) in
  listener_id
    (set_existing_rule_name (PStr "plugin-success")
       (set_plugin_tester_arn (PStr "arn:aws:states:workflow") fresh_test_case))
  = listener_id fresh_test_case
  /\ acquired [stack_query_sample;
               AddListener "default" (PStr "plugin-success") (Raise e)]
     = acquired []
  /\ (get_stack_outputs client "plugin-tester"
        ["PluginLifecycleWorkflow"; "PluginSuccessEventRuleName"] = Raise e
      \/ (exn_class e = KeyError
          /\ In (exn_arg e)
               ["PluginLifecycleWorkflow"; "PluginSuccessEventRuleName"])
      \/ exists rule, add_listener client "default" rule = Raise e).
Proof.
  intros e client.
  apply (setUp_failure_frame (cls_with client sfn) fresh_test_case _ [] _ e).
  reflexivity.
Defined.

(** The test method when the execution starts and the wait gives true. *)
Lemma test_passes_iff_witness :
  exists st',
    test_minimal_plugin_event_published_waiting (cls (iatk (Return true)))
      float_repr_id (fresh_test_case, [])
    = (Return tt, st').
Proof.
  apply (proj2 (test_passes_iff (cls (iatk (Return true))) float_repr_id
                  fresh_test_case [])).
  split; reflexivity.
Defined.

(** The test method when the workflow cannot be started. *)
Lemma test_raise_inv_witness :
  let e := Exn (ProviderError "ClientError") "access denied" in
  let c := cls_with (iatk (Return true)) sfn_down in
  start_execution (step_functions_client c) PNone trigger_text = Raise e
  \/ (start_execution (step_functions_client c) PNone trigger_text = Return tt
      /\ (wait_until_event_matched (iatk_client c) PNone
            _matched_event_is_correct (SLA_TIMEOUT_SECONDS c) = Raise e
          \/ (wait_until_event_matched (iatk_client c) PNone
                _matched_event_is_correct (SLA_TIMEOUT_SECONDS c)
              = Return false
              /\ e = Exn AssertionError "False is not true"))).
Proof.
  intros e c.
  apply (test_raise_inv c float_repr_id fresh_test_case [] e
           (fresh_test_case, [StartExecution PNone trigger_text])).
  reflexivity.
Defined.

(** The calls of a run in which the wait gives false. *)
Lemma run_trace_shapes_witness :
  let tr :=
    [stack_query_sample;
     AddListener "default" (PStr "plugin-success") (Return (PStr "listener-1"));
     StartExecution (PStr "arn:aws:states:workflow") trigger_text;
     WaitUntilEventMatched (PStr "listener-1") 20 (Return false);
     RemoveListeners [PStr "listener-1"]] in
  tr = [stack_query_sample]
  \/ (exists rule e,
        tr = [stack_query_sample; AddListener "default" rule (Raise e)])
  \/ (exists arn rule id,
        tr = [stack_query_sample; AddListener "default" rule (Return id);
              StartExecution arn trigger_text; RemoveListeners [id]])
  \/ (exists arn rule id waited,
        tr = [stack_query_sample; AddListener "default" rule (Return id);
              StartExecution arn trigger_text;
              WaitUntilEventMatched id 20 waited;
              RemoveListeners [id]]).
Proof.
  intros tr.
  apply (run_trace_shapes (cls (iatk (Return false))) float_repr_id
           {| success := false;
              failures := [Exn AssertionError "False is not true"];
              errors := [] |} tr).
  vm_compute. reflexivity.
Defined.

(** The run in which every call returns and the wait gives true. *)
Lemma run_passes_iff_witness :
  run_test (cls (iatk (Return true))) float_repr_id
  = (Return ok_outcome,
     [stack_query_sample;
      AddListener "default" (PStr "plugin-success") (Return (PStr "listener-1"));
      StartExecution (PStr "arn:aws:states:workflow") trigger_text;
      WaitUntilEventMatched (PStr "listener-1") 20 (Return true);
      RemoveListeners [PStr "listener-1"]]).
Proof.
  apply (proj2 (run_passes_iff (cls (iatk (Return true))) float_repr_id _)).
  exists both_outputs, (PStr "arn:aws:states:workflow"),
    (PStr "plugin-success"), (PStr "listener-1").
  repeat split.
Defined.

(** A tuple is serialized as a list: the handler returns its envelope. *)
Example getStocksRequest_tuple :
  getStocksRequest stock_as_tuple float_repr_id (PStr "AAPL")
  = (Return (PDict [("statusCode", PInt 200);
                    ("body", PStr (dq "{'message': ['AAPL', 187]}"))]),
     [[OfVal (PStr "Stock Data"); OfVal (PTuple [PStr "AAPL"; PInt 187])]]).
Proof. vm_compute. reflexivity. Qed.

(** An integer of 4301 digits is refused by the encoder with a
    [ValueError], which the handler catches. *)
Example getStocksRequest_oversized_int :
  getStocksRequest stock_oversized float_repr_id (PStr "AAPL")
  = (Raise (Exn UnboundLocalError "response"),
     [[OfVal (PStr "Stock Data"); OfVal (PInt (10 ^ 4300))];
      [OfExn (Exn ValueError
                "Exceeds the limit (4300 digits) for integer string conversion")]]).
Proof. vm_compute. reflexivity. Qed.

End OnMoreSamples.
